(** * Events service (src/server/index.ts): request handlers over a document store

    A shallow embedding of the Express handlers of the calendar backend and
    of the store operations they call, followed by the properties of the
    CRUD operations: partial update, required-field validation, identifier
    validation, range listing and the timestamp invariant.

    Conventions of the embedding:
    - a request body is a finite map from field names to JSON values; a
      field the body lacks reads as [undefined] ([None]);
    - a handler is a state-passing computation with exceptions over a
      [world]: the [events] collection, the store's identifier counter, the
      log of the store calls issued, and the number of clock readings taken;
    - the runtime's [new Date(v)], the driver's identifier parser and the
      system clock are parameters of the development: every property holds
      whatever they compute, and the examples instantiate them;
    - the store answers every call (no connection failure is modelled);
      the [catch] branches of the create and update handlers are reached
      when [new Date(date)] throws. *)

From Stdlib Require Import ZArith Floats Ascii String.
From stdpp Require Import gmap strings list fin_maps.

Set Warnings "-register-all".
Local Open Scope Z_scope.

(** ** Request data: JSON values as [express.json()] delivers them *)

Inductive json :=
| JNull
| JBool (b : bool)
| JNum (x : float)
| JStr (s : string)
| JArr (l : list json)
| JObj (l : list (string * json)).

(** A destructured request field is a JSON value or [undefined] ([None]). *)
Abbreviation jsval := (option json).

(** JavaScript truthiness (ToBoolean) of a JSON value: [null], [false],
    [+0], [-0], [NaN] and the empty string are falsy. *)
Definition ToBoolean (v : json) : bool :=
  match v with
  | JNull => false
  | JBool b => b
  | JNum x => negb (PrimFloat.eqb x 0%float || PrimFloat.is_nan x)
  | JStr s => negb (String.eqb s "")
  | JArr _ | JObj _ => true
  end.

(** [undefined] is falsy. *)
Definition truthy (v : jsval) : bool :=
  match v with
  | Some j => ToBoolean j
  | None => false
  end.

(** [v !== undefined] *)
Definition defined (v : jsval) : bool :=
  match v with
  | Some _ => true
  | None => false
  end.

(** [v || dflt] *)
Definition js_or (v : jsval) (dflt : json) : json :=
  match v with
  | Some j => if ToBoolean j then j else dflt
  | None => dflt
  end.

(** Truthiness of a query-string parameter: absent and empty are falsy. *)
Definition truthy_param (p : option string) : bool :=
  match p with
  | Some s => negb (String.eqb s "")
  | None => false
  end.

(** ** Dates *)

(** Whether converting a JSON value to a primitive throws a [TypeError],
    as [new Date(v)] and [Array.prototype.join] convert it. The values of
    a parsed object are never callable, so an own [toString] key hides the
    inherited method and leaves no method that yields a primitive; an
    array is joined, which converts its elements the same way ([null]
    elements are skipped). Primitives are returned as they are. *)
Fixpoint ToPrimitive_throws (v : json) : bool :=
  match v with
  | JObj l => existsb (λ kv, String.eqb (fst kv) "toString") l
  | JArr l => existsb ToPrimitive_throws l
  | JNull | JBool _ | JNum _ | JStr _ => false
  end.

(** Whether [new Date(v)] throws; [new Date(undefined)] does not. *)
Definition Date_throws (v : jsval) : bool :=
  match v with
  | Some j => ToPrimitive_throws j
  | None => false
  end.

(** A JavaScript [Date]: a time value in milliseconds since the epoch, or
    the Invalid Date. *)
Inductive jsdate :=
| InvalidDate
| Date (t : Z).

(** ** Stored documents *)

(** Values of a stored document: the request's JSON values, BSON dates
    (64-bit millisecond counts) and object identifiers (12 bytes, as a
    number). *)
Inductive bson :=
| BJson (v : json)
| BDate (ms : Z)
| BObjectId (o : N).

Abbreviation doc := (gmap string bson).

(** The filters the handlers build: [{}], [{ _id: o }] and
    [{ date: { $gte: lo, $lte: hi } }]. *)
Inductive filter :=
| FAll
| FById (o : N)
| FDateRange (lo hi : Z).

(** A comparison against a date matches date-typed fields only. *)
Definition matches (f : filter) (d : doc) : bool :=
  match f with
  | FAll => true
  | FById o =>
      match d !! "_id" with
      | Some (BObjectId o') => N.eqb o' o
      | _ => false
      end
  | FDateRange lo hi =>
      match d !! "date" with
      | Some (BDate t) => (lo <=? t) && (t <=? hi)
      | _ => false
      end
  end.

(** The calls a handler issues to the collection, in order. *)
Inductive store_call :=
| CFind (f : filter)
| CFindOne (f : filter)
| CInsertOne (d : doc)
| CUpdateOne (f : filter) (set : doc)
| CDeleteOne (f : filter).

(** The world a request runs in: the [events] collection in the store's
    order, the next identifier the store hands out, the calls issued so
    far and the number of clock readings taken so far. *)
Record world := World {
  coll : list doc;
  next_oid : N;
  log : list store_call;
  tick : nat
}.

Definition empty_world : world :=
  {| coll := []; next_oid := 0%N; log := []; tick := 0%nat |}.

(** ** Handler monad: state passing with exceptions *)

Inductive outcome (A : Type) :=
| Returned (a : A)
| Thrown (msg : string).
Arguments Returned {A} a.
Arguments Thrown {A} msg.

Definition M (A : Type) : Type := world → outcome A * world.

Definition ret {A} (a : A) : M A := λ w, (Returned a, w).

Definition bind {A B} (m : M A) (k : A → M B) : M B :=
  λ w, match m w with
       | (Returned a, w') => k a w'
       | (Thrown msg, w') => (Thrown msg, w')
       end.

Definition throw {A} (msg : string) : M A := λ w, (Thrown msg, w).

(** [try { m } catch (error) { h error.message }] *)
Definition try_catch {A} (m : M A) (h : string → M A) : M A :=
  λ w, match m w with
       | (Returned a, w') => (Returned a, w')
       | (Thrown msg, w') => h msg w'
       end.

Declare Scope handler_scope.
Delimit Scope handler_scope with handler.
Notation "'let!' x ':=' m 'in' k" := (bind m (λ x, k))
  (at level 10, x name, m at level 100, k at level 200) : handler_scope.
Local Open Scope handler_scope.

Definition record_call (c : store_call) : M unit :=
  λ w, (Returned tt,
        {| coll := coll w; next_oid := next_oid w;
           log := log w ++ [c]; tick := tick w |}).

Definition get_coll : M (list doc) := λ w, (Returned (coll w), w).

Definition put_coll (l : list doc) : M unit :=
  λ w, (Returned tt,
        {| coll := l; next_oid := next_oid w; log := log w; tick := tick w |}).

(** ** The document store *)

(** Position and content of the first document a filter matches. *)
Definition first_match (f : filter) (l : list doc) : option (nat * doc) :=
  list_find (λ d, matches f d) l.

Record InsertOneResult := { insertedId : option N }.
Record UpdateResult := { matchedCount : nat }.
Record DeleteResult := { deletedCount : nat }.

(** Modelled from the spec: the [database] module (./database) and the
    collection it returns are not among the sources; [find] follows the
    store contract [find(filter) → sequence], in the store's order. *)
Definition find (f : filter) : M (list doc) :=
  let! _ := record_call (CFind f) in
  let! l := get_coll in
  ret (List.filter (matches f) l).

(** Modelled from the spec: the [database] module is not among the
    sources; [findOne(filter) → record|none] yields the first match. *)
Definition findOne (f : filter) : M (option doc) :=
  let! _ := record_call (CFindOne f) in
  let! l := get_coll in
  ret (snd <$> first_match f l).

(** Modelled from the spec: the [database] module is not among the
    sources; [insertOne(doc) → {insertedId}] appends the document under an
    identifier assigned by the store, which is never handed out again. *)
Definition insertOne (d : doc) : M InsertOneResult :=
  let! _ := record_call (CInsertOne d) in
  λ w, let o := next_oid w in
       (Returned {| insertedId := Some o |},
        {| coll := coll w ++ [<["_id" := BObjectId o]> d];
           next_oid := N.succ o; log := log w; tick := tick w |}).

(** Modelled from the spec: the [database] module is not among the
    sources; [updateOne(filter, {$set: set}) → {matchedCount}] overwrites
    the fields of [set] in the first matching document and leaves its
    other fields as they are. *)
Definition updateOne (f : filter) (set : doc) : M UpdateResult :=
  let! _ := record_call (CUpdateOne f set) in
  let! l := get_coll in
  match first_match f l with
  | Some (i, d) =>
      let! _ := put_coll (<[i := set ∪ d]> l) in
      ret {| matchedCount := 1 |}
  | None => ret {| matchedCount := 0 |}
  end.

(** Modelled from the spec: the [database] module is not among the
    sources; [deleteOne(filter) → {deletedCount}] removes the first
    matching document. *)
Definition deleteOne (f : filter) : M DeleteResult :=
  let! _ := record_call (CDeleteOne f) in
  let! l := get_coll in
  match first_match f l with
  | Some (i, _) =>
      let! _ := put_coll (delete i l) in
      ret {| deletedCount := 1 |}
  | None => ret {| deletedCount := 0 |}
  end.

(** ** Runtime instances used by the examples *)

(** Value of a hexadecimal digit. *)
Definition hex_digit (a : ascii) : option N :=
  let n := N_of_ascii a in
  if (48 <=? n)%N && (n <=? 57)%N then Some (n - 48)%N
  else if (65 <=? n)%N && (n <=? 70)%N then Some (n - 55)%N
  else if (97 <=? n)%N && (n <=? 102)%N then Some (n - 87)%N
  else None.

Fixpoint hex_value (s : string) (acc : N) : option N :=
  match s with
  | EmptyString => Some acc
  | String a s' =>
      match hex_digit a with
      | Some d => hex_value s' (16 * acc + d)%N
      | None => None
      end
  end.

(** An identifier parser of the driver's kind: a string denotes an
    identifier when it is 24 hexadecimal digits, upper or lower case. *)
Definition ObjectId_of_hex (s : string) : option N :=
  if Nat.eqb (String.length s) 24 then hex_value s 0%N else None.

Definition dec_digit (a : ascii) : option Z :=
  let n := Z.of_N (N_of_ascii a) in
  if (48 <=? n) && (n <=? 57) then Some (n - 48) else None.

Fixpoint dec_value (s : string) (acc : Z) : option Z :=
  match s with
  | EmptyString => Some acc
  | String a s' =>
      match dec_digit a with
      | Some d => dec_value s' (10 * acc + d)
      | None => None
      end
  end.

(** Days from 1970-01-01 to the civil date [y]-[m]-[d]. *)
Definition days_from_civil (y m d : Z) : Z :=
  let y' := if m <=? 2 then y - 1 else y in
  let era := y' / 400 in
  let yoe := y' - era * 400 in
  let mp := (m + 9) mod 12 in
  let doy := (153 * mp + 2) / 5 + d - 1 in
  let doe := yoe * 365 + yoe / 4 - yoe / 100 + doy in
  era * 146097 + doe - 719468.

(** A date constructor for the examples: a date-only string
    [YYYY-MM-DD] is midnight UTC of that day; anything else is taken as
    the Invalid Date. *)
Definition Date_of_iso (v : json) : jsdate :=
  match v with
  | JStr s =>
      if Nat.eqb (String.length s) 10
         && String.eqb (substring 4 1 s) "-"
         && String.eqb (substring 7 1 s) "-"
      then
        match dec_value (substring 0 4 s) 0,
              dec_value (substring 5 2 s) 0,
              dec_value (substring 8 2 s) 0 with
        | Some y, Some m, Some d =>
            if (1 <=? m) && (m <=? 12) && (1 <=? d) && (d <=? 31)
            then Date (days_from_civil y m d * 86400000)
            else InvalidDate
        | _, _, _ => InvalidDate
        end
      else InvalidDate
  | _ => InvalidDate
  end.

(** ** Example data *)

(** A clock whose readings are one millisecond apart. *)
Definition ms_clock (i : nat) : Z := 1730332800000 + Z.of_nat i.


Definition id0 : string := "000000000000000000000000".

Definition id1 : string := "000000000000000000000001".

Definition ritual : gmap string json :=
  {[ "title" := JStr "Ritual";
     "date" := JStr "2024-10-31";
     "type" := JStr "ceremony" ]}.

Definition time_only : gmap string json := {[ "time" := JStr "21:00" ]}.

Definition empty_strings : gmap string json :=
  {[ "title" := JStr ""; "description" := JStr "" ]}.

Definition no_title : gmap string json :=
  {[ "date" := JStr "2024-10-31"; "type" := JStr "ceremony" ]}.

(** The record stored for [ritual] when created in the empty store at
    readings [t1] and [t2] of the clock. *)
Definition ritual_stored (t1 t2 : Z) : doc :=
  {[ "_id" := BObjectId 0;
     "title" := BJson (JStr "Ritual");
     "description" := BJson (JStr "");
     "date" := BDate 1730332800000;
     "type" := BJson (JStr "ceremony");
     "time" := BJson (JStr "");
     "createdAt" := BDate t1;
     "updatedAt" := BDate t2 ]}.

Definition one_event_world : world :=
  {| coll := [ritual_stored 1730332800000 1730332800001];
     next_oid := 1%N; log := []; tick := 2%nat |}.

(** A clock that runs backwards, one millisecond per reading. *)
Definition backward_clock (i : nat) : Z := 1730332800000 - Z.of_nat i.

(** The parsed body value [{"toString": 1}]: its own [toString] is not
    callable, so it cannot be converted to a primitive. *)
Definition unprintable : json := JObj [("toString", JNum 1%float)].

Definition ritual_unprintable_date : gmap string json :=
  {[ "title" := JStr "Ritual";
     "date" := unprintable;
     "type" := JStr "ceremony" ]}.

Definition ritual_garbage_date : gmap string json :=
  {[ "title" := JStr "Ritual";
     "date" := JStr "garbage";
     "type" := JStr "ceremony" ]}.

Definition empty_description_unprintable_date : gmap string json :=
  {[ "description" := JStr ""; "date" := unprintable ]}.

(** The stored ritual with a description. *)
Definition gathering_stored : doc :=
  <["description" := BJson (JStr "Gathering")]>
    (ritual_stored 1730332800000 1730332800001).

Definition described_world : world :=
  {| coll := [gathering_stored];
     next_oid := 1%N; log := []; tick := 2%nat |}.

(** The stored ritual dated at the epoch. *)
Definition epoch_stored : doc :=
  <["date" := BDate 0]> (ritual_stored 1730332800000 1730332800001).

Definition epoch_world : world :=
  {| coll := [epoch_stored]; next_oid := 1%N; log := []; tick := 2%nat |}.

(** ** Responses *)

Inductive payload :=
| PDocs (events : list doc)
| PDoc (event : option doc)
| PError (error : string) (message : option string)
| PMessage (message : string).

Record response := Response { status : Z; payload_of : payload }.

(** ** The handlers of src/server/index.ts *)

Section Service.

(** The system clock: [clock i] is the i-th reading of [new Date()]. *)
Variable clock : nat → Z.
(** [new Date(v)] of the runtime, on a JSON value. *)
Variable Date_of : json → jsdate.
(** The driver's identifier parser: [ObjectId.isValid(id)] holds, and
    [new ObjectId(id)] returns, exactly when it yields an identifier. *)
Variable ObjectId_of : string → option N.
(** The millisecond count the driver writes for an Invalid Date. *)
Variable invalid_ms : Z.

(** [new Date()] *)
Definition new_Date_now : M jsdate :=
  λ w, (Returned (Date (clock (tick w))),
        {| coll := coll w; next_oid := next_oid w;
           log := log w; tick := S (tick w) |}).

(** The date [new Date(v)] constructs when it returns;
    [new Date(undefined)] is the Invalid Date. *)
Definition Date_value (v : jsval) : jsdate :=
  match v with
  | Some j => Date_of j
  | None => InvalidDate
  end.

(** [new Date(v)]: a [TypeError] when [v] cannot be converted to a
    primitive, the constructed date otherwise. *)
Definition new_Date (v : jsval) : M jsdate :=
  if Date_throws v then throw "Cannot convert object to primitive value"
  else ret (Date_value v).

Definition ObjectId_isValid (id : string) : bool :=
  match ObjectId_of id with
  | Some _ => true
  | None => false
  end.

Definition new_ObjectId (id : string) : M N :=
  match ObjectId_of id with
  | Some o => ret o
  | None => throw "input must be a 24 character hex string, 12 byte Uint8Array, or an integer"
  end.

(** A date as the driver writes it into a document or a filter. *)
Definition bson_date (d : jsdate) : Z :=
  match d with
  | Date t => t
  | InvalidDate => invalid_ms
  end.

(** A request value as the driver writes it ([undefined] as [null]). *)
Definition bson_value (v : jsval) : bson :=
  match v with
  | Some j => BJson j
  | None => BJson JNull
  end.

(** [c && o]: the object when [c] holds, a falsy value otherwise. *)
Definition js_and (c : bool) (o : doc) : option doc :=
  if c then Some o else None.

(** [{ ...obj, ...src }]: spreading a falsy value adds no property. *)
Definition spread (obj : doc) (src : option doc) : doc :=
  match src with
  | Some s => s ∪ obj
  | None => obj
  end.

(** [c && m]: [m] is evaluated only when [c] holds. *)
Definition js_and_then (c : bool) (m : M doc) : M (option doc) :=
  if c then (let! o := m in ret (Some o)) else ret None.

(** The object literal [updateData] of the update handler, evaluated
    property by property: [new Date(date)] is evaluated only for a truthy
    [date], and before the clock is read for [updatedAt]. *)
Definition updateData (title description date type time : jsval) : M doc :=
  let o := ∅ in
  let o := spread o (js_and (truthy title) {[ "title" := bson_value title ]}) in
  let o := spread o (js_and (defined description)
                       {[ "description" := bson_value description ]}) in
  let! date_entry :=
    js_and_then (truthy date)
      (let! d := new_Date date in ret {[ "date" := BDate (bson_date d) ]}) in
  let o := spread o date_entry in
  let o := spread o (js_and (truthy type) {[ "type" := bson_value type ]}) in
  let o := spread o (js_and (defined time) {[ "time" := bson_value time ]}) in
  let! now := new_Date_now in
  ret (<["updatedAt" := BDate (bson_date now)]> o).

(** [app.get('/api/events')] *)
Definition get_events : M response :=
  try_catch
    (let! events := find FAll in
     ret (Response 200 (PDocs events)))
    (λ msg, ret (Response 500 (PError "Failed to fetch events" (Some msg)))).

(** [app.get('/api/events/range')] with [req.query = { start, end }] *)
Definition get_events_range (start end_ : option string) : M response :=
  try_catch
    (if negb (truthy_param start) || negb (truthy_param end_) then
       ret (Response 400 (PError "Start and end dates are required" None))
     else
       let! gte := new_Date (JStr <$> start) in
       let! lte := new_Date (JStr <$> end_) in
       let! events := find (FDateRange (bson_date gte) (bson_date lte)) in
       ret (Response 200 (PDocs events)))
    (λ msg, ret (Response 500 (PError "Failed to fetch events" (Some msg)))).

(** [app.post('/api/events')] with [req.body = body] *)
Definition post_events (body : gmap string json) : M response :=
  try_catch
    (let title := body !! "title" in
     let description := body !! "description" in
     let date := body !! "date" in
     let type := body !! "type" in
     let time := body !! "time" in
     if negb (truthy title) || negb (truthy date) || negb (truthy type) then
       ret (Response 400
              (PError "Missing required fields: title, date, and type are required"
                      None))
     else
       let! date' := new_Date date in
       let! createdAt := new_Date_now in
       let! updatedAt := new_Date_now in
       let event : doc :=
         {[ "title" := bson_value title;
            "description" := BJson (js_or description (JStr ""));
            "date" := BDate (bson_date date');
            "type" := bson_value type;
            "time" := BJson (js_or time (JStr ""));
            "createdAt" := BDate (bson_date createdAt);
            "updatedAt" := BDate (bson_date updatedAt) ]} in
       let! result := insertOne event in
       match insertedId result with
       | Some oid =>
           let! newEvent := findOne (FById oid) in
           ret (Response 201 (PDoc newEvent))
       | None => throw "Failed to insert event"
       end)
    (λ msg, ret (Response 500 (PError "Failed to create event" (Some msg)))).

(** [app.put('/api/events/:id')] with [req.params = { id }] *)
Definition put_events_id (id : string) (body : gmap string json) : M response :=
  try_catch
    (let title := body !! "title" in
     let description := body !! "description" in
     let date := body !! "date" in
     let type := body !! "type" in
     let time := body !! "time" in
     if negb (ObjectId_isValid id) then
       ret (Response 400 (PError "Invalid event ID" None))
     else
       let! set := updateData title description date type time in
       let! oid := new_ObjectId id in
       let! result := updateOne (FById oid) set in
       if Nat.eqb (matchedCount result) 0 then
         ret (Response 404 (PError "Event not found" None))
       else
         let! oid' := new_ObjectId id in
         let! updatedEvent := findOne (FById oid') in
         ret (Response 200 (PDoc updatedEvent)))
    (λ msg, ret (Response 500 (PError "Failed to update event" (Some msg)))).

(** [app.delete('/api/events/:id')] *)
Definition delete_events_id (id : string) : M response :=
  try_catch
    (if negb (ObjectId_isValid id) then
       ret (Response 400 (PError "Invalid event ID" None))
     else
       let! oid := new_ObjectId id in
       let! result := deleteOne (FById oid) in
       if Nat.eqb (deletedCount result) 0 then
         ret (Response 404 (PError "Event not found" None))
       else
         ret (Response 200 (PMessage "Event deleted successfully")))
    (λ msg, ret (Response 500 (PError "Failed to delete event" (Some msg)))).

(** ** Request sequences *)

Inductive request :=
| GetEvents
| GetEventsRange (start end_ : option string)
| PostEvents (body : gmap string json)
| PutEvent (id : string) (body : gmap string json)
| DeleteEvent (id : string).

Definition handle (r : request) : M response :=
  match r with
  | GetEvents => get_events
  | GetEventsRange s e => get_events_range s e
  | PostEvents b => post_events b
  | PutEvent id b => put_events_id id b
  | DeleteEvent id => delete_events_id id
  end.

(** The world after a sequence of requests served one after another. *)
Definition serve (rs : list request) (w : world) : world :=
  foldl (λ w r, snd (handle r w)) w rs.

(** ** The health check *)

Section Health.

Inductive health_payload :=
| HealthOk (status database timestamp : string)
| HealthError (status message error : string).

Record health_response :=
  HealthResponse { health_status : Z; health_payload_of : health_payload }.

(** What the call [database.ping()] yields: a liveness flag, or an
    exception with its message. *)
Variable ping_outcome : outcome bool.
(** [Date.prototype.toISOString] on a time value. *)
Variable iso_string : Z → string.

(** Modelled from the spec: the [database] module is not among the
    sources; [ping()] is the store's liveness check and touches no
    collection. *)
Definition database_ping : M bool := λ w, (ping_outcome, w).

(** [d.toISOString()], a [RangeError] on the Invalid Date. *)
Definition toISOString (d : jsdate) : M string :=
  match d with
  | Date t => ret (iso_string t)
  | InvalidDate => throw "Invalid time value"
  end.

(** [app.get('/api/health')] *)
Definition get_health : M health_response :=
  try_catch
    (let! isConnected := database_ping in
     let! now := new_Date_now in
     let! timestamp := toISOString now in
     ret (HealthResponse 200
            (HealthOk "ok"
               (if isConnected then "connected" else "disconnected")
               timestamp)))
    (λ msg, ret (HealthResponse 500
                   (HealthError "error" "Health check failed" msg))).

End Health.


(** ** Vocabulary of the properties *)

(** The document [updateData] evaluates to when [new Date(date)] returns
    and the clock reads [now]. *)
Definition update_set (title description date type time : jsval)
    (now : jsdate) : doc :=
  let o := ∅ in
  let o := spread o (js_and (truthy title) {[ "title" := bson_value title ]}) in
  let o := spread o (js_and (defined description)
                       {[ "description" := bson_value description ]}) in
  let o := spread o (js_and (truthy date)
                       {[ "date" := BDate (bson_date (Date_value date)) ]}) in
  let o := spread o (js_and (truthy type) {[ "type" := bson_value type ]}) in
  let o := spread o (js_and (defined time) {[ "time" := bson_value time ]}) in
  <["updatedAt" := BDate (bson_date now)]> o.

(** The fields an update request may carry. *)
Definition update_fields : list string :=
  ["title"; "description"; "date"; "type"; "time"].

(** The body supplies field [k]. *)
Definition supplied (body : gmap string json) (k : string) : Prop :=
  k ∈ update_fields ∧ is_Some (body !! k).

(** The identifier a stored document carries. *)
Definition doc_id (d : doc) : option N :=
  match d !! "_id" with
  | Some (BObjectId o) => Some o
  | _ => None
  end.

(** The store's own invariant: every document carries an identifier the
    store has already handed out, and no two documents share one. *)
Definition store_wf (w : world) : bool :=
  forallb (λ d, match doc_id d with
                | Some o => (o <? next_oid w)%N
                | None => false
                end) (coll w)
  && bool_decide (NoDup (doc_id <$> coll w)).

(** The clock never runs backwards. *)
Definition monotone_clock : Prop :=
  ∀ i j : nat, (i ≤ j)%nat → clock i ≤ clock j.

(** A document's [createdAt] does not exceed its [updatedAt]. *)
Definition timestamps_ordered (d : doc) : Prop :=
  ∃ c u, d !! "createdAt" = Some (BDate c) ∧
         d !! "updatedAt" = Some (BDate u) ∧ c ≤ u.

(** A document's timestamps are ordered and its [updatedAt] is not later
    than any reading the clock has still to give. *)
Definition stamped (w : world) (d : doc) : Prop :=
  ∃ c u, d !! "createdAt" = Some (BDate c) ∧
         d !! "updatedAt" = Some (BDate u) ∧ c ≤ u ∧
         ∀ j : nat, (tick w ≤ j)%nat → u ≤ clock j.

Definition all_stamped (w : world) : Prop :=
  ∀ d, d ∈ coll w → stamped w d.

(** The record the create handler stores for [body] under identifier [o]
    at clock readings [tc] and [tu]. *)
Definition created_event (body : gmap string json) (o : N) (tc tu : Z) : doc :=
  <["_id" := BObjectId o]>
    {[ "title" := bson_value (body !! "title");
       "description" := BJson (js_or (body !! "description") (JStr ""));
       "date" := BDate (bson_date (Date_value (body !! "date")));
       "type" := bson_value (body !! "type");
       "time" := BJson (js_or (body !! "time") (JStr ""));
       "createdAt" := BDate tc;
       "updatedAt" := BDate tu ]}.

(** The update document the update handler builds for [body] at clock
    reading [t], when [new Date(date)] returns. *)
Definition update_document (body : gmap string json) (t : Z) : doc :=
  update_set (body !! "title") (body !! "description") (body !! "date")
             (body !! "type") (body !! "time") (Date t).

(** A stored event has a truthy [title] and [type], a date, and JSON
    values for [description] and [time]. *)
Definition complete_event (d : doc) : Prop :=
  ∃ t da ty de ti,
    d !! "title" = Some (BJson t) ∧ ToBoolean t = true ∧
    d !! "date" = Some (BDate da) ∧
    d !! "type" = Some (BJson ty) ∧ ToBoolean ty = true ∧
    d !! "description" = Some (BJson de) ∧
    d !! "time" = Some (BJson ti).

(** The calls that write to the collection. *)
Definition is_write (c : store_call) : bool :=
  match c with
  | CInsertOne _ | CUpdateOne _ _ | CDeleteOne _ => true
  | CFind _ | CFindOne _ => false
  end.

(** The request passes its handler's guard and carries a [date] on which
    [new Date] throws. *)
Definition date_aborts (r : request) : bool :=
  match r with
  | PostEvents body =>
      truthy (body !! "title") && truthy (body !! "date")
      && truthy (body !! "type") && Date_throws (body !! "date")
  | PutEvent id body => ObjectId_isValid id && Date_throws (body !! "date")
  | _ => false
  end.

Definition is_delete (r : request) : bool :=
  match r with
  | DeleteEvent _ => true
  | _ => false
  end.

(** * Properties *)

(** ** The update document *)

Lemma update_set_updatedAt t d da ty ti now :
  update_set t d da ty ti now !! "updatedAt" = Some (BDate (bson_date now)).
Proof. unfold update_set. apply lookup_insert_eq. Qed.

Lemma spread_lookup_ne (o : doc) c (k k' : string) v :
  k ≠ k' → spread o (js_and c {[ k := v ]}) !! k' = o !! k'.
Proof.
  intros Hne. destruct c; simpl; [|done].
  rewrite lookup_union_r; [done|]. by rewrite lookup_singleton_ne.
Qed.

Lemma spread_lookup_false (o : doc) (k k' : string) v :
  spread o (js_and false {[ k := v ]}) !! k' = o !! k'.
Proof. done. Qed.

Lemma spread_lookup_true (o : doc) (k : string) v :
  spread o (js_and true {[ k := v ]}) !! k = Some v.
Proof.
  simpl. apply lookup_union_Some_l. apply lookup_singleton_eq.
Qed.

Lemma truthy_defined v : truthy v = true → is_Some v.
Proof. destruct v; [eauto | done]. Qed.

Lemma defined_is_Some v : defined v = true → is_Some v.
Proof. destruct v; [eauto | done]. Qed.

(** The update document, key by key. *)
Lemma update_set_lookup t d da ty ti now (k : string) :
  update_set t d da ty ti now !! k =
    if decide (k = "updatedAt") then Some (BDate (bson_date now))
    else if decide (k = "time") then
      (if defined ti then Some (bson_value ti) else None)
    else if decide (k = "type") then
      (if truthy ty then Some (bson_value ty) else None)
    else if decide (k = "date") then
      (if truthy da then Some (BDate (bson_date (Date_value da))) else None)
    else if decide (k = "description") then
      (if defined d then Some (bson_value d) else None)
    else if decide (k = "title") then
      (if truthy t then Some (bson_value t) else None)
    else None.
Proof.
  unfold update_set.
  repeat case_decide; subst;
    repeat first
      [ rewrite lookup_insert_eq | rewrite lookup_insert_ne by done
      | rewrite spread_lookup_ne by done ];
    try done.
  all: match goal with
       | |- spread _ (js_and ?c _) !! _ = _ =>
           destruct c; [apply spread_lookup_true | rewrite spread_lookup_false]
       end.
  all: repeat rewrite spread_lookup_ne by done; done.
Qed.

(** A key that the body does not supply, other than [updatedAt], is not in
    the update document. *)
Lemma update_set_unsupplied (body : gmap string json) now (k : string) :
  ¬ supplied body k → k ≠ "updatedAt" →
  update_set (body !! "title") (body !! "description") (body !! "date")
             (body !! "type") (body !! "time") now !! k = None.
Proof.
  intros Hns Hk. unfold update_set.
  rewrite lookup_insert_ne by done.
  assert (Hfield : ∀ f c v (o : doc), f ∈ update_fields →
            (c = true → is_Some (body !! f)) →
            spread o (js_and c {[ f := v ]}) !! k = o !! k).
  { intros f c v o Hf Hc. destruct c; [|done].
    apply spread_lookup_ne. intros ->. apply Hns. split; auto. }
  rewrite !Hfield; first done.
  all: try (unfold update_fields; set_solver).
  all: auto using truthy_defined, defined_is_Some.
Qed.

(** ** The store's first-match semantics *)

Lemma first_match_Some f l i d :
  first_match f l = Some (i, d) →
  l !! i = Some d ∧ matches f d = true ∧
  ∀ j y, l !! j = Some y → (j < i)%nat → matches f y = false.
Proof.
  unfold first_match. intros H. apply list_find_Some in H as (Hl & Hm & Hlt).
  split; [done|]. split; [by apply Is_true_true|].
  intros j y Hj Hji. specialize (Hlt j y Hj Hji).
  destruct (matches f y); [by exfalso; apply Hlt | done].
Qed.

Lemma first_match_None f l :
  first_match f l = None → ∀ d, d ∈ l → matches f d = false.
Proof.
  unfold first_match. intros H d Hd.
  rewrite list_find_None in H. rewrite Forall_forall in H.
  specialize (H d Hd). destruct (matches f d); [by exfalso; apply H | done].
Qed.

(** Replacing the first match by a document that still matches keeps it
    the first match. *)
Lemma first_match_insert f l i d d' :
  first_match f l = Some (i, d) → matches f d' = true →
  first_match f (<[i := d']> l) = Some (i, d').
Proof.
  intros H Hm. apply first_match_Some in H as (Hl & _ & Hlt).
  unfold first_match. apply list_find_Some. split.
  - apply list_lookup_insert_eq. by eapply lookup_lt_Some.
  - split; [by apply Is_true_true|].
    intros j y Hj Hji. rewrite list_lookup_insert_ne in Hj by lia.
    rewrite (Hlt j y Hj Hji). auto.
Qed.

(** [$set] never touches the identifier, so the updated document is still
    the one the filter selects. *)
Lemma matches_id_set o (set d : doc) :
  set !! "_id" = None → matches (FById o) d = true →
  matches (FById o) (set ∪ d) = true.
Proof.
  intros Hs Hm. unfold matches in *. by rewrite lookup_union_r.
Qed.

Lemma update_set_no_id (body : gmap string json) now :
  update_set (body !! "title") (body !! "description") (body !! "date")
             (body !! "type") (body !! "time") now !! "_id" = None.
Proof.
  rewrite update_set_lookup. by repeat case_decide.
Qed.

(** After [$set] with the update document the record is still the first
    one stored under its identifier. *)
Lemma updated_still_first l (body : gmap string json) o i old now :
  first_match (FById o) l = Some (i, old) →
  first_match (FById o)
    (<[i := update_set (body !! "title") (body !! "description")
              (body !! "date") (body !! "type") (body !! "time") now ∪ old]> l)
  = Some (i, update_set (body !! "title") (body !! "description")
               (body !! "date") (body !! "type") (body !! "time") now ∪ old).
Proof.
  intros Hfm. eapply first_match_insert; [exact Hfm|].
  apply matches_id_set; [apply update_set_no_id|].
  by eapply first_match_Some.
Qed.

(** ** Date construction and the update document *)

Lemma bind_run {A B} (m : M A) (k : A → M B) w :
  bind m k w = match m w with
               | (Returned a, w') => k a w'
               | (Thrown msg, w') => (Thrown msg, w')
               end.
Proof. reflexivity. Qed.

(** Only objects and arrays can fail to convert, and they are truthy. *)
Lemma Date_throws_truthy v : Date_throws v = true → truthy v = true.
Proof. by destruct v as [[]|]. Qed.

Lemma new_Date_returns v w :
  Date_throws v = false → new_Date v w = (Returned (Date_value v), w).
Proof. intros H. unfold new_Date. by rewrite H. Qed.

Lemma new_Date_throws v w :
  Date_throws v = true →
  new_Date v w = (Thrown "Cannot convert object to primitive value", w).
Proof. intros H. unfold new_Date. by rewrite H. Qed.

(** A query-string parameter is a string: the constructor returns. *)
Lemma new_Date_string (p : option string) w :
  new_Date (JStr <$> p) w = (Returned (Date_value (JStr <$> p)), w).
Proof. apply new_Date_returns. by destruct p. Qed.

(** When [new Date(date)] returns, the literal evaluates to [update_set]
    at the clock's reading, which it consumes. *)
Lemma updateData_returns t d da ty ti w :
  Date_throws da = false →
  updateData t d da ty ti w =
    (Returned (update_set t d da ty ti (Date (clock (tick w)))),
     {| coll := coll w; next_oid := next_oid w; log := log w;
        tick := S (tick w) |}).
Proof.
  intros H. unfold updateData, update_set, js_and_then, js_and.
  destruct (truthy da).
  - rewrite !bind_run, (new_Date_returns da w H). reflexivity.
  - reflexivity.
Qed.

(** When [new Date(date)] throws, the literal throws before the clock is
    read. *)
Lemma updateData_throws t d da ty ti w :
  Date_throws da = true →
  updateData t d da ty ti w =
    (Thrown "Cannot convert object to primitive value", w).
Proof.
  intros H. unfold updateData, js_and_then.
  rewrite (Date_throws_truthy da H).
  rewrite !bind_run, (new_Date_throws da w H). reflexivity.
Qed.

(** ** Running the update handler *)

(** On a valid identifier of a stored record the handler issues one
    [updateOne] and one [findOne], and answers 200 with the merged record. *)
Lemma put_events_id_found w id body o i old :
  ObjectId_of id = Some o →
  first_match (FById o) (coll w) = Some (i, old) →
  Date_throws (body !! "date") = false →
  let set := update_set (body !! "title") (body !! "description")
               (body !! "date") (body !! "type") (body !! "time")
               (Date (clock (tick w))) in
  put_events_id id body w =
    (Returned (Response 200 (PDoc (Some (set ∪ old)))),
     {| coll := <[i := set ∪ old]> (coll w);
        next_oid := next_oid w;
        log := log w ++ [CUpdateOne (FById o) set; CFindOne (FById o)];
        tick := S (tick w) |}).
Proof.
  intros Hid Hfm Hconv set.
  pose proof (updated_still_first (coll w) body o i old
                (Date (clock (tick w))) Hfm) as Hfm'.
  unfold put_events_id, try_catch, ObjectId_isValid, new_ObjectId.
  rewrite Hid. simpl.
  rewrite bind_run, updateData_returns by done.
  unfold bind, updateOne, findOne, bind, record_call, get_coll,
    put_coll, ret. simpl.
  fold set in Hfm' |- *. rewrite Hfm. simpl. rewrite Hfm'. simpl.
  by rewrite <- app_assoc.
Qed.

(** When [new Date(date)] throws, the handler answers 500 from its
    [catch]; no clock reading is taken and no store call issued. *)
Lemma put_events_id_aborts w id body o :
  ObjectId_of id = Some o →
  Date_throws (body !! "date") = true →
  put_events_id id body w =
    (Returned (Response 500
       (PError "Failed to update event"
               (Some "Cannot convert object to primitive value"))), w).
Proof.
  intros Hid Hthrow.
  unfold put_events_id, try_catch, ObjectId_isValid, new_ObjectId.
  rewrite Hid. simpl.
  by rewrite bind_run, updateData_throws.
Qed.

(** ** Partial update *)

(** C1. After an update with a valid id of a stored record, whatever the
    body, every field of the record that the body does not supply, other
    than [updatedAt], has the value it had before, and no other record of
    the collection changes. When [new Date(date)] returns, the answer is
    200 with the record as stored afterwards; when it throws, the answer
    is 500 and nothing at all has changed. *)
Theorem update_keeps_unsupplied_fields w id body o i old :
  ObjectId_of id = Some o →
  first_match (FById o) (coll w) = Some (i, old) →
  ∃ resp new w',
    put_events_id id body w = (Returned resp, w') ∧
    coll w' = <[i := new]> (coll w) ∧
    first_match (FById o) (coll w') = Some (i, new) ∧
    (∀ k : string, ¬ supplied body k → k ≠ "updatedAt" →
       new !! k = old !! k) ∧
    (Date_throws (body !! "date") = false →
       resp = Response 200 (PDoc (Some new))) ∧
    (Date_throws (body !! "date") = true →
       status resp = 500 ∧ w' = w ∧ new = old).
Proof.
  intros Hid Hfm.
  destruct (Date_throws (body !! "date")) eqn:Hthrow.
  - exists (Response 500
              (PError "Failed to update event"
                      (Some "Cannot convert object to primitive value"))),
      old, w.
    split; [by apply (put_events_id_aborts w id body o)|].
    split; [symmetry; apply list_insert_id; by eapply first_match_Some|].
    by repeat split.
  - pose proof (put_events_id_found w id body o i old Hid Hfm Hthrow) as Hrun.
    cbv zeta in Hrun. eexists _, _, _. split; [exact Hrun|]. simpl.
    split; [done|]. split; [by apply updated_still_first|].
    split; [|by split].
    intros k Hns Hk. rewrite lookup_union_r; [done|].
    by apply update_set_unsupplied.
Qed.

(** C3 (amended). In an update of a stored record whose [date], if any,
    [new Date] converts, an empty-string [description] or [time] is
    written into the update document and replaces the stored value, while
    an empty-string [title], [date] or [type] is left out of the update
    document and the stored value stays. *)
Theorem update_empty_string_asymmetry w id body o i old :
  ObjectId_of id = Some o →
  first_match (FById o) (coll w) = Some (i, old) →
  Date_throws (body !! "date") = false →
  ∃ set new w',
    put_events_id id body w = (Returned (Response 200 (PDoc (Some new))), w') ∧
    log w' = log w ++ [CUpdateOne (FById o) set; CFindOne (FById o)] ∧
    first_match (FById o) (coll w') = Some (i, new) ∧
    (∀ k : string, k ∈ ["description"; "time"] →
       body !! k = Some (JStr "") →
       set !! k = Some (BJson (JStr "")) ∧ new !! k = Some (BJson (JStr ""))) ∧
    (∀ k : string, k ∈ ["title"; "date"; "type"] →
       body !! k = Some (JStr "") →
       set !! k = None ∧ new !! k = old !! k).
Proof.
  intros Hid Hfm Hconv.
  pose proof (put_events_id_found w id body o i old Hid Hfm Hconv) as Hrun.
  cbv zeta in Hrun. eexists _, _, _. split; [exact Hrun|]. simpl.
  split; [done|]. split.
  - by apply updated_still_first.
  - split; intros k Hk Hb.
    + assert (Hset : update_set (body !! "title") (body !! "description")
                (body !! "date") (body !! "type") (body !! "time")
                (Date (clock (tick w))) !! k = Some (BJson (JStr ""))).
      { rewrite update_set_lookup.
        rewrite !elem_of_cons, elem_of_nil in Hk.
        destruct Hk as [-> | [-> | []]]; rewrite Hb; by repeat case_decide. }
      split; [done|]. by apply lookup_union_Some_l.
    + assert (Hset : update_set (body !! "title") (body !! "description")
                (body !! "date") (body !! "type") (body !! "time")
                (Date (clock (tick w))) !! k = None).
      { rewrite update_set_lookup.
        rewrite !elem_of_cons, elem_of_nil in Hk.
        destruct Hk as [-> | [-> | [-> | []]]]; rewrite Hb;
          by repeat case_decide. }
      split; [done|]. by rewrite lookup_union_r.
Qed.

(** C10. An update with a valid id of a stored record whose body supplies
    none of the five fields still answers 200: the update document holds
    exactly the refreshed [updatedAt], so it is not empty, and the stored
    record differs from the previous one in [updatedAt] only. *)
Theorem update_with_no_fields_refreshes_updatedAt w id body o i old :
  ObjectId_of id = Some o →
  first_match (FById o) (coll w) = Some (i, old) →
  (∀ k : string, k ∈ update_fields → body !! k = None) →
  ∃ set new w',
    put_events_id id body w = (Returned (Response 200 (PDoc (Some new))), w') ∧
    log w' = log w ++ [CUpdateOne (FById o) set; CFindOne (FById o)] ∧
    set = {[ "updatedAt" := BDate (clock (tick w)) ]} ∧
    set ≠ ∅ ∧
    new = <["updatedAt" := BDate (clock (tick w))]> old ∧
    coll w' = <[i := new]> (coll w).
Proof.
  intros Hid Hfm Hnone.
  assert (Hconv : Date_throws (body !! "date") = false).
  { rewrite Hnone; [done|]. unfold update_fields. rewrite !elem_of_cons.
    tauto. }
  pose proof (put_events_id_found w id body o i old Hid Hfm Hconv) as Hrun.
  cbv zeta in Hrun.
  assert (Hset : update_set (body !! "title") (body !! "description")
            (body !! "date") (body !! "type") (body !! "time")
            (Date (clock (tick w)))
          = {[ "updatedAt" := BDate (clock (tick w)) ]}).
  { apply map_eq. intros k. rewrite update_set_lookup.
    rewrite !Hnone by (unfold update_fields; rewrite !elem_of_cons; tauto).
    simpl. repeat case_decide; subst;
      by rewrite ?lookup_singleton_eq, ?lookup_singleton_ne by done. }
  rewrite Hset in Hrun.
  eexists _, _, _. split; [exact Hrun|]. simpl.
  split; [done|]. split; [done|]. split.
  - intros He. apply (f_equal (λ m : doc, m !! "updatedAt")) in He.
    by rewrite lookup_singleton_eq, lookup_empty in He.
  - split; [|done]. by rewrite insert_union_singleton_l.
Qed.

(** ** Validation *)

(** C5. A create request whose [title], [date] or [type] is missing or
    falsy is answered with 400 and the required-fields error; the world is
    left as it was: no call is logged and the collection is unchanged. *)
Theorem create_rejects_missing_required_fields body w :
  truthy (body !! "title") = false ∨ truthy (body !! "date") = false
    ∨ truthy (body !! "type") = false →
  post_events body w =
    (Returned (Response 400
       (PError "Missing required fields: title, date, and type are required"
               None)), w).
Proof.
  intros H. unfold post_events, try_catch.
  assert (Hc : negb (truthy (body !! "title")) || negb (truthy (body !! "date"))
               || negb (truthy (body !! "type")) = true).
  { destruct H as [-> | [-> | ->]]; simpl;
      rewrite ?orb_true_r; reflexivity. }
  rewrite Hc. reflexivity.
Qed.

(** C6. An update or a delete whose id the driver does not accept is
    answered with 400 and the invalid-id error; the world is left as it
    was: no call is logged and the collection is unchanged. *)
Theorem invalid_id_rejected_without_store_call id body w :
  ObjectId_isValid id = false →
  put_events_id id body w =
    (Returned (Response 400 (PError "Invalid event ID" None)), w) ∧
  delete_events_id id w =
    (Returned (Response 400 (PError "Invalid event ID" None)), w).
Proof.
  intros H. unfold put_events_id, delete_events_id, try_catch.
  rewrite H. split; reflexivity.
Qed.

(** ** Deleting *)

Lemma matches_id_doc_id o d : matches (FById o) d = true ↔ doc_id d = Some o.
Proof.
  unfold matches, doc_id. destruct (d !! "_id") as [[v|t|o']|]; try done.
  rewrite N.eqb_eq. split; congruence.
Qed.

Lemma store_wf_NoDup w : store_wf w = true → NoDup (doc_id <$> coll w).
Proof.
  unfold store_wf. rewrite andb_true_iff. intros [_ H].
  by apply bool_decide_eq_true in H.
Qed.

Lemma store_wf_bound w d :
  store_wf w = true → d ∈ coll w →
  ∃ o, doc_id d = Some o ∧ (o < next_oid w)%N.
Proof.
  unfold store_wf. rewrite andb_true_iff. intros [H _] Hd.
  rewrite forallb_forall in H. apply list_elem_of_In in Hd.
  specialize (H d Hd). destruct (doc_id d) as [o|]; [|done].
  exists o. split; [done|]. by apply N.ltb_lt.
Qed.

(** With distinct identifiers, removing the first match leaves no match. *)
Lemma first_match_delete l o i d :
  NoDup (doc_id <$> l) →
  first_match (FById o) l = Some (i, d) →
  first_match (FById o) (delete i l) = None.
Proof.
  intros Hnd Hfm. apply first_match_Some in Hfm as (Hl & Hm & Hlt).
  unfold first_match. apply list_find_None. apply Forall_lookup.
  intros j y Hj Hy. apply Is_true_true in Hy.
  destruct (decide (j < i)%nat) as [Hji | Hji].
  - rewrite list_lookup_delete_lt in Hj by done.
    rewrite (Hlt j y Hj Hji) in Hy. done.
  - rewrite list_lookup_delete_ge in Hj by lia.
    apply matches_id_doc_id in Hm, Hy.
    assert (i = S j); [|lia].
    eapply NoDup_lookup; [exact Hnd | |].
    + by rewrite list_lookup_fmap, Hl; simpl; rewrite Hm.
    + by rewrite list_lookup_fmap, Hj; simpl; rewrite Hy.
Qed.

Lemma delete_events_id_found w id o i d :
  ObjectId_of id = Some o →
  first_match (FById o) (coll w) = Some (i, d) →
  delete_events_id id w =
    (Returned (Response 200 (PMessage "Event deleted successfully")),
     {| coll := delete i (coll w); next_oid := next_oid w;
        log := log w ++ [CDeleteOne (FById o)]; tick := tick w |}).
Proof.
  intros Hid Hfm.
  unfold delete_events_id, try_catch, ObjectId_isValid, new_ObjectId.
  rewrite Hid. simpl.
  unfold bind, deleteOne, bind, record_call, get_coll, put_coll, ret. simpl.
  rewrite Hfm. reflexivity.
Qed.

Lemma delete_events_id_absent w id o :
  ObjectId_of id = Some o →
  first_match (FById o) (coll w) = None →
  delete_events_id id w =
    (Returned (Response 404 (PError "Event not found" None)),
     {| coll := coll w; next_oid := next_oid w;
        log := log w ++ [CDeleteOne (FById o)]; tick := tick w |}).
Proof.
  intros Hid Hfm.
  unfold delete_events_id, try_catch, ObjectId_isValid, new_ObjectId.
  rewrite Hid. simpl.
  unfold bind, deleteOne, bind, record_call, get_coll, put_coll, ret. simpl.
  rewrite Hfm. reflexivity.
Qed.

(** C7. For the id of a stored event, two deletes in a row answer 200 with
    the confirmation message and then 404: after the first one no stored
    record carries the identifier. *)
Theorem delete_twice_ok_then_not_found w id o d :
  store_wf w = true →
  ObjectId_of id = Some o →
  d ∈ coll w → doc_id d = Some o →
  ∃ w1 w2,
    delete_events_id id w =
      (Returned (Response 200 (PMessage "Event deleted successfully")), w1) ∧
    delete_events_id id w1 =
      (Returned (Response 404 (PError "Event not found" None)), w2) ∧
    (∀ d', d' ∈ coll w1 → doc_id d' ≠ Some o) ∧
    coll w2 = coll w1.
Proof.
  intros Hwf Hid Hd Ho.
  destruct (first_match (FById o) (coll w)) as [[i d0]|] eqn:Hfm.
  2: { apply first_match_None with (d := d) in Hfm; [|done].
       apply matches_id_doc_id in Ho. congruence. }
  pose proof (first_match_delete _ _ _ _ (store_wf_NoDup _ Hwf) Hfm) as Hgone.
  eexists _, _. split; [by eapply delete_events_id_found|].
  split; [by apply delete_events_id_absent|]. simpl. split; [|done].
  intros d' Hd' Ho'. apply matches_id_doc_id in Ho'.
  rewrite (first_match_None _ _ Hgone d' Hd') in Ho'. done.
Qed.

(** ** Listing by range *)

(** C4 (amended). When [start] and [end] are both present, not empty
    and parse to dates [lo] and [hi], the range listing answers 200 with
    exactly the stored events whose date [t] satisfies [lo ≤ t ≤ hi], both
    bounds included; the collection is not changed. *)
Theorem range_lists_events_within_bounds w s e lo hi :
  s ≠ "" → e ≠ "" →
  Date_of (JStr s) = Date lo → Date_of (JStr e) = Date hi →
  ∃ evs w',
    get_events_range (Some s) (Some e) w =
      (Returned (Response 200 (PDocs evs)), w') ∧
    coll w' = coll w ∧
    ∀ d, d ∈ evs ↔
         d ∈ coll w ∧ ∃ t, d !! "date" = Some (BDate t) ∧ lo ≤ t ≤ hi.
Proof.
  intros Hs He Hlo Hhi.
  unfold get_events_range, try_catch, truthy_param.
  apply String.eqb_neq in Hs, He. rewrite Hs, He. cbn [negb orb].
  rewrite !bind_run, !new_Date_string. simpl. rewrite Hlo, Hhi. simpl.
  unfold find, bind, record_call, get_coll, ret. simpl.
  eexists _, _. split; [reflexivity|]. simpl. split; [done|].
  intros d. rewrite list_elem_of_In, filter_In, <- list_elem_of_In.
  unfold matches. split.
  - intros [Hd Hm]. split; [done|].
    destruct (d !! "date") as [[v|t|o]|]; try done.
    exists t. split; [done|]. apply andb_true_iff in Hm. lia.
  - intros [Hd (t & -> & Ht)]. split; [done|].
    apply andb_true_iff. lia.
Qed.

(** ** Creating *)

(** A fresh identifier selects the appended document. *)
Lemma first_match_fresh w (d : doc) :
  store_wf w = true →
  first_match (FById (next_oid w))
    (coll w ++ [<["_id" := BObjectId (next_oid w)]> d])
  = Some (length (coll w), <["_id" := BObjectId (next_oid w)]> d).
Proof.
  intros Hwf. unfold first_match.
  rewrite list_find_app_r.
  - simpl. rewrite decide_True; [done|].
    apply Is_true_true. apply matches_id_doc_id.
    unfold doc_id. by rewrite lookup_insert_eq.
  - apply list_find_None, Forall_forall. intros x Hx Hm.
    apply Is_true_true, matches_id_doc_id in Hm.
    destruct (store_wf_bound w x Hwf Hx) as (o & Ho & Hlt).
    rewrite Hm in Ho. injection Ho as <-. lia.
Qed.

(** The document the create handler builds from a body and two clock
    readings. *)
Lemma post_events_created w body :
  store_wf w = true →
  truthy (body !! "title") = true →
  truthy (body !! "date") = true →
  truthy (body !! "type") = true →
  Date_throws (body !! "date") = false →
  let event : doc :=
    {[ "title" := bson_value (body !! "title");
       "description" := BJson (js_or (body !! "description") (JStr ""));
       "date" := BDate (bson_date (Date_value (body !! "date")));
       "type" := bson_value (body !! "type");
       "time" := BJson (js_or (body !! "time") (JStr ""));
       "createdAt" := BDate (clock (tick w));
       "updatedAt" := BDate (clock (S (tick w))) ]} in
  let new := <["_id" := BObjectId (next_oid w)]> event in
  post_events body w =
    (Returned (Response 201 (PDoc (Some new))),
     {| coll := coll w ++ [new]; next_oid := N.succ (next_oid w);
        log := log w ++ [CInsertOne event; CFindOne (FById (next_oid w))];
        tick := S (S (tick w)) |}).
Proof.
  intros Hwf Ht Hd Hty Hconv event new.
  pose proof (first_match_fresh w event Hwf) as Hfm. fold new in Hfm.
  unfold post_events, try_catch. rewrite Ht, Hd, Hty. simpl.
  rewrite bind_run, new_Date_returns by done.
  unfold bind, new_Date_now, insertOne, findOne, bind, record_call, get_coll,
    ret. simpl.
  fold event. fold new. rewrite Hfm. simpl.
  by rewrite <- app_assoc.
Qed.

(** When [new Date(date)] throws, the create handler answers 500 from
    its [catch]; no clock reading is taken and nothing is stored. *)
Lemma post_events_aborts w body :
  truthy (body !! "title") = true →
  truthy (body !! "type") = true →
  Date_throws (body !! "date") = true →
  post_events body w =
    (Returned (Response 500
       (PError "Failed to create event"
               (Some "Cannot convert object to primitive value"))), w).
Proof.
  intros Ht Hty Hthrow.
  unfold post_events, try_catch.
  rewrite Ht, Hty, (Date_throws_truthy _ Hthrow). simpl.
  by rewrite bind_run, new_Date_throws.
Qed.

(** C2 (amended). A create request whose [title] and [type] are truthy
    and whose [date] is a truthy value from which [new Date] constructs a
    date [t] is answered with 201 and the stored record: its [title] and
    [type] are the input's, its [date] is [t], [description] and [time]
    are the empty string when the body omits them, and [createdAt] and
    [updatedAt] are the two clock readings the handler takes, one after
    the other; they are equal when the two readings are. *)
Theorem create_returns_stored_record w body da t :
  store_wf w = true →
  truthy (body !! "title") = true →
  truthy (body !! "type") = true →
  body !! "date" = Some da → ToBoolean da = true →
  ToPrimitive_throws da = false → Date_of da = Date t →
  ∃ new w',
    post_events body w = (Returned (Response 201 (PDoc (Some new))), w') ∧
    coll w' = coll w ++ [new] ∧
    new !! "title" = BJson <$> body !! "title" ∧
    new !! "date" = Some (BDate t) ∧
    new !! "type" = BJson <$> body !! "type" ∧
    (body !! "description" = None →
       new !! "description" = Some (BJson (JStr ""))) ∧
    (body !! "time" = None → new !! "time" = Some (BJson (JStr ""))) ∧
    new !! "createdAt" = Some (BDate (clock (tick w))) ∧
    new !! "updatedAt" = Some (BDate (clock (S (tick w)))) ∧
    (clock (tick w) = clock (S (tick w)) →
       new !! "createdAt" = new !! "updatedAt").
Proof.
  intros Hwf Ht Hty Hda Htd Hconv Hdate.
  assert (Hd : truthy (body !! "date") = true) by by rewrite Hda.
  assert (Hc : Date_throws (body !! "date") = false) by by rewrite Hda.
  pose proof (post_events_created w body Hwf Ht Hd Hty Hc) as Hrun.
  cbv zeta in Hrun. eexists _, _. split; [exact Hrun|]. simpl.
  split; [done|].
  destruct (body !! "title") as [ti|] eqn:Et; [|done].
  destruct (body !! "type") as [ty|] eqn:Ety; [|done].
  rewrite Hda. simpl. rewrite Hdate. simpl.
  repeat split; try (intros ->); by simplify_map_eq.
Qed.

(** ** What one request does *)

Lemma filter_matches_all (l : list doc) : List.filter (matches FAll) l = l.
Proof. induction l as [|d l IH]; simpl; [done | by rewrite IH]. Qed.

Lemma get_events_run w :
  get_events w =
    (Returned (Response 200 (PDocs (coll w))),
     {| coll := coll w; next_oid := next_oid w;
        log := log w ++ [CFind FAll]; tick := tick w |}).
Proof.
  unfold get_events, try_catch, find, bind, record_call, get_coll, ret.
  simpl. by rewrite filter_matches_all.
Qed.

Lemma get_events_range_rejects s e w :
  truthy_param s = false ∨ truthy_param e = false →
  get_events_range s e w =
    (Returned (Response 400 (PError "Start and end dates are required" None)),
     w).
Proof.
  intros H. unfold get_events_range, try_catch.
  assert (Hc : negb (truthy_param s) || negb (truthy_param e) = true).
  { destruct H as [-> | ->]; simpl; rewrite ?orb_true_r; reflexivity. }
  by rewrite Hc.
Qed.

Lemma get_events_range_run s e w :
  truthy_param s = true → truthy_param e = true →
  get_events_range s e w =
    (Returned (Response 200 (PDocs
       (List.filter
          (matches (FDateRange (bson_date (Date_value (JStr <$> s)))
                               (bson_date (Date_value (JStr <$> e)))))
          (coll w)))),
     {| coll := coll w; next_oid := next_oid w;
        log := log w ++ [CFind (FDateRange
                                  (bson_date (Date_value (JStr <$> s)))
                                  (bson_date (Date_value (JStr <$> e))))];
        tick := tick w |}).
Proof.
  intros Hs He. unfold get_events_range, try_catch.
  rewrite Hs, He. cbn [negb orb].
  rewrite bind_run, new_Date_string. cbn beta iota.
  rewrite bind_run, new_Date_string. reflexivity.
Qed.

Lemma post_events_rejects body w :
  truthy (body !! "title") = false ∨ truthy (body !! "date") = false
    ∨ truthy (body !! "type") = false →
  post_events body w =
    (Returned (Response 400
       (PError "Missing required fields: title, date, and type are required"
               None)), w).
Proof.
  intros H. unfold post_events, try_catch.
  assert (Hc : negb (truthy (body !! "title")) || negb (truthy (body !! "date"))
               || negb (truthy (body !! "type")) = true).
  { destruct H as [-> | [-> | ->]]; simpl;
      rewrite ?orb_true_r; reflexivity. }
  by rewrite Hc.
Qed.

(** Past the guard, when [new Date(date)] returns, the record is appended
    under the store's next identifier and read back. *)
Lemma post_events_inserts body w :
  truthy (body !! "title") = true →
  truthy (body !! "date") = true →
  truthy (body !! "type") = true →
  Date_throws (body !! "date") = false →
  post_events body w =
    (Returned (Response 201 (PDoc (snd <$>
       first_match (FById (next_oid w))
         (coll w ++ [created_event body (next_oid w) (clock (tick w))
                       (clock (S (tick w)))])))),
     {| coll := coll w ++ [created_event body (next_oid w) (clock (tick w))
                             (clock (S (tick w)))];
        next_oid := N.succ (next_oid w);
        log := log w ++ [CInsertOne (delete "_id"
                           (created_event body (next_oid w) (clock (tick w))
                              (clock (S (tick w)))));
                         CFindOne (FById (next_oid w))];
        tick := S (S (tick w)) |}).
Proof.
  intros Ht Hd Hty Hconv.
  unfold post_events, try_catch. rewrite Ht, Hd, Hty. simpl.
  rewrite bind_run, new_Date_returns by done.
  unfold bind, new_Date_now, insertOne, findOne, bind, record_call, get_coll,
    ret. simpl.
  unfold created_event. rewrite delete_insert_id by done.
  by rewrite <- app_assoc.
Qed.

Lemma put_events_id_invalid id body w :
  ObjectId_of id = None →
  put_events_id id body w =
    (Returned (Response 400 (PError "Invalid event ID" None)), w).
Proof.
  intros H. unfold put_events_id, try_catch, ObjectId_isValid. by rewrite H.
Qed.

Lemma delete_events_id_invalid id w :
  ObjectId_of id = None →
  delete_events_id id w =
    (Returned (Response 400 (PError "Invalid event ID" None)), w).
Proof.
  intros H. unfold delete_events_id, try_catch, ObjectId_isValid.
  by rewrite H.
Qed.

Lemma first_match_absent o (l : list doc) :
  (∀ d, d ∈ l → doc_id d ≠ Some o) → first_match (FById o) l = None.
Proof.
  intros H. unfold first_match. apply list_find_None, Forall_forall.
  intros d Hd Hm. apply Is_true_true, matches_id_doc_id in Hm.
  by apply (H d Hd).
Qed.

Lemma put_events_id_absent w id body o :
  ObjectId_of id = Some o →
  first_match (FById o) (coll w) = None →
  Date_throws (body !! "date") = false →
  put_events_id id body w =
    (Returned (Response 404 (PError "Event not found" None)),
     {| coll := coll w; next_oid := next_oid w;
        log := log w ++ [CUpdateOne (FById o)
                           (update_document body (clock (tick w)))];
        tick := S (tick w) |}).
Proof.
  intros Hid Hfm Hconv.
  unfold put_events_id, try_catch, ObjectId_isValid, new_ObjectId.
  rewrite Hid. simpl.
  rewrite bind_run, updateData_returns by done.
  unfold bind, updateOne, bind, record_call, get_coll, ret.
  simpl. rewrite Hfm. reflexivity.
Qed.

(** Every request returns a response, and changes the collection in one
    of four ways: not at all, by appending the created record, by
    rewriting the selected record with the update document, or by
    removing the selected record. *)
Lemma handle_cases r w :
  ∃ resp w',
    handle r w = (Returned resp, w') ∧ (tick w ≤ tick w')%nat ∧
    ((coll w' = coll w ∧ next_oid w' = next_oid w ∧
      (status resp = 400 ∨ status resp = 404 ∨ status resp = 500 ∨
       (status resp = 200 ∧ is_delete r = false)))
     ∨ (∃ body, r = PostEvents body ∧ status resp = 201 ∧
          truthy (body !! "title") = true ∧ truthy (body !! "date") = true ∧
          truthy (body !! "type") = true ∧
          Date_throws (body !! "date") = false ∧
          coll w' = coll w ++ [created_event body (next_oid w)
                                 (clock (tick w)) (clock (S (tick w)))] ∧
          next_oid w' = N.succ (next_oid w) ∧
          tick w' = S (S (tick w)))
     ∨ (∃ id body o i old, r = PutEvent id body ∧ status resp = 200 ∧
          ObjectId_of id = Some o ∧
          first_match (FById o) (coll w) = Some (i, old) ∧
          Date_throws (body !! "date") = false ∧
          coll w' = <[i := update_document body (clock (tick w)) ∪ old]>
                      (coll w) ∧
          next_oid w' = next_oid w ∧ tick w' = S (tick w))
     ∨ (∃ id o i d, r = DeleteEvent id ∧ status resp = 200 ∧
          ObjectId_of id = Some o ∧
          first_match (FById o) (coll w) = Some (i, d) ∧
          coll w' = delete i (coll w) ∧ next_oid w' = next_oid w)).
Proof.
  destruct r as [|s e|body|id body|id]; simpl.
  - rewrite get_events_run.
    eexists _, _. split; [reflexivity|]. simpl. split; [lia|].
    left. repeat split. do 3 right. done.
  - destruct (truthy_param s) eqn:Hs; [destruct (truthy_param e) eqn:He|].
    + rewrite get_events_range_run by done.
      eexists _, _. split; [reflexivity|]. simpl. split; [lia|].
      left. repeat split. do 3 right. done.
    + rewrite get_events_range_rejects by auto.
      eexists _, _. split; [reflexivity|]. split; [lia|].
      left. repeat split. by left.
    + rewrite get_events_range_rejects by auto.
      eexists _, _. split; [reflexivity|]. split; [lia|].
      left. repeat split. by left.
  - destruct (truthy (body !! "title")) eqn:Ht;
      [destruct (truthy (body !! "date")) eqn:Hd;
        [destruct (truthy (body !! "type")) eqn:Hty;
          [destruct (Date_throws (body !! "date")) eqn:Hthrow|]|]|].
    + rewrite post_events_aborts by done.
      eexists _, _. split; [reflexivity|]. split; [lia|].
      left. repeat split. right. right. by left.
    + rewrite post_events_inserts by done.
      eexists _, _. split; [reflexivity|]. simpl. split; [lia|].
      right. left. exists body. by repeat split.
    + rewrite post_events_rejects by auto.
      eexists _, _. split; [reflexivity|]. split; [lia|].
      left. repeat split. by left.
    + rewrite post_events_rejects by auto.
      eexists _, _. split; [reflexivity|]. split; [lia|].
      left. repeat split. by left.
    + rewrite post_events_rejects by auto.
      eexists _, _. split; [reflexivity|]. split; [lia|].
      left. repeat split. by left.
  - destruct (ObjectId_of id) as [o|] eqn:Hid.
    2: { rewrite put_events_id_invalid by done.
         eexists _, _. split; [reflexivity|]. split; [lia|].
         left. repeat split. by left. }
    destruct (Date_throws (body !! "date")) eqn:Hthrow.
    { rewrite (put_events_id_aborts w id body o) by done.
      eexists _, _. split; [reflexivity|]. split; [lia|].
      left. repeat split. right. right. by left. }
    destruct (first_match (FById o) (coll w)) as [[i old]|] eqn:Hfm.
    + pose proof (put_events_id_found w id body o i old Hid Hfm Hthrow) as Hr.
      cbv zeta in Hr. rewrite Hr.
      eexists _, _. split; [reflexivity|]. simpl. split; [lia|].
      right. right. left. exists id, body, o, i, old. by repeat split.
    + rewrite (put_events_id_absent w id body o) by done.
      eexists _, _. split; [reflexivity|]. simpl. split; [lia|].
      left. repeat split. right. by left.
  - destruct (ObjectId_of id) as [o|] eqn:Hid.
    2: { rewrite delete_events_id_invalid by done.
         eexists _, _. split; [reflexivity|]. split; [lia|].
         left. repeat split. by left. }
    destruct (first_match (FById o) (coll w)) as [[i d]|] eqn:Hfm.
    + rewrite (delete_events_id_found w id o i d) by done.
      eexists _, _. split; [reflexivity|]. simpl. split; [lia|].
      right. right. right. exists id, o, i, d. by repeat split.
    + rewrite (delete_events_id_absent w id o) by done.
      eexists _, _. split; [reflexivity|]. simpl. split; [lia|].
      left. repeat split. right. by left.
Qed.

(** ** Timestamps along request sequences *)

Lemma elem_of_list_insert_inv (l : list doc) i x d :
  d ∈ <[i := x]> l → d = x ∨ d ∈ l.
Proof.
  intros [j Hj]%list_elem_of_lookup.
  destruct (decide (i = j)) as [-> | Hne].
  - destruct (decide (j < length l)%nat).
    + rewrite list_lookup_insert_eq in Hj by done. left. congruence.
    + rewrite list_insert_ge in Hj by lia. right.
      by eapply list_elem_of_lookup_2.
  - rewrite list_lookup_insert_ne in Hj by done. right.
    by eapply list_elem_of_lookup_2.
Qed.

Lemma stamped_later w w' d :
  (tick w ≤ tick w')%nat → stamped w d → stamped w' d.
Proof.
  intros Hle (c & u & Hc & Hu & Hcu & Hfut).
  exists c, u. repeat split; try done. intros j Hj. apply Hfut. lia.
Qed.

Lemma handle_stamped r w :
  monotone_clock → all_stamped w → all_stamped (snd (handle r w)).
Proof.
  intros Hmono Hinv d.
  destruct (handle_cases r w) as (resp & w' & Hrun & Htick & Hcases).
  rewrite Hrun. simpl.
  destruct Hcases as [(-> & _)
    | [(body & _ & _ & _ & _ & _ & _ & -> & _ & Ht)
    | [(id & body & o & i & old & _ & _ & _ & Hfm & _ & -> & _ & Ht)
    | (id & o & i & d0 & _ & _ & _ & _ & -> & _)]]].
  - intros Hd. eapply stamped_later; [exact Htick | by apply Hinv].
  - intros [Hd | ->%list_elem_of_singleton]%elem_of_app.
    + eapply stamped_later; [exact Htick | by apply Hinv].
    + exists (clock (tick w)), (clock (S (tick w))).
      unfold created_event.
      split; [by simplify_map_eq|]. split; [by simplify_map_eq|].
      split; [apply Hmono; lia|]. rewrite Ht. intros j Hj. apply Hmono. lia.
  - intros [-> | Hd]%elem_of_list_insert_inv.
    + apply first_match_Some in Hfm as (Hold%list_elem_of_lookup_2 & _).
      destruct (Hinv old Hold) as (c & u & Hc & Hu & Hcu & Hfut).
      exists c, (clock (tick w)). unfold update_document. split.
      { rewrite lookup_union_r; [done|].
        rewrite update_set_lookup. by repeat case_decide. }
      split; [by apply lookup_union_Some_l, update_set_updatedAt|].
      split; [specialize (Hfut (tick w)); lia|].
      rewrite Ht. intros j Hj. apply Hmono. lia.
    + eapply stamped_later; [exact Htick | by apply Hinv].
  - intros Hd%list_elem_of_delete_inv.
    eapply stamped_later; [exact Htick | by apply Hinv].
Qed.

Lemma serve_stamped rs w :
  monotone_clock → all_stamped w → all_stamped (serve rs w).
Proof.
  intros Hmono. revert w. unfold serve.
  induction rs as [|r rs IH]; intros w Hinv; simpl; [done|].
  apply IH. by apply handle_stamped.
Qed.

Lemma empty_world_stamped : all_stamped empty_world.
Proof. intros d Hd. simpl in Hd. by apply elem_of_nil in Hd. Qed.

(** C8 (amended). Under a clock that never runs backwards, after any
    sequence of requests served from the empty store every stored record
    has [createdAt ≤ updatedAt]. *)
Theorem createdAt_le_updatedAt_always rs d :
  monotone_clock →
  d ∈ coll (serve rs empty_world) →
  timestamps_ordered d.
Proof.
  intros Hmono Hd.
  destruct (serve_stamped rs empty_world Hmono empty_world_stamped d Hd)
    as (c & u & Hc & Hu & Hcu & _).
  by exists c, u.
Qed.


(** ** The store's invariant along request sequences *)

Lemma store_wf_iff w :
  store_wf w = true ↔
  (∀ d, d ∈ coll w → ∃ o, doc_id d = Some o ∧ (o < next_oid w)%N) ∧
  NoDup (doc_id <$> coll w).
Proof.
  split.
  - intros H. split; [intros d; by apply store_wf_bound | by apply store_wf_NoDup].
  - intros [Hb Hnd]. unfold store_wf. apply andb_true_iff. split.
    + apply forallb_forall. intros d Hd%list_elem_of_In.
      destruct (Hb d Hd) as (o & -> & Hlt). by apply N.ltb_lt.
    + by apply bool_decide_eq_true.
Qed.

Lemma store_wf_same w w' :
  coll w' = coll w → next_oid w' = next_oid w →
  store_wf w = true → store_wf w' = true.
Proof. unfold store_wf. by intros -> ->. Qed.

Lemma doc_id_set (body : gmap string json) now old :
  doc_id (update_set (body !! "title") (body !! "description")
            (body !! "date") (body !! "type") (body !! "time") now ∪ old)
  = doc_id old.
Proof.
  unfold doc_id. by rewrite lookup_union_r by apply update_set_no_id.
Qed.

Lemma handle_store_wf r w :
  store_wf w = true → store_wf (snd (handle r w)) = true.
Proof.
  intros Hwf.
  destruct (handle_cases r w) as (resp & w' & Hrun & _ & Hcases).
  rewrite Hrun. simpl.
  destruct Hcases as [(Hc & Hn & _)
    | [(body & _ & _ & _ & _ & _ & _ & Hc & Hn & _)
    | [(id & body & o & i & old & _ & _ & _ & Hfm & _ & Hc & Hn & _)
    | (id & o & i & d0 & _ & _ & _ & _ & Hc & Hn)]]].
  - by apply (store_wf_same w).
  - apply store_wf_iff in Hwf as [Hb Hnd]. apply store_wf_iff.
    rewrite Hc, Hn. split.
    + intros d [Hd | ->%list_elem_of_singleton]%elem_of_app.
      * destruct (Hb d Hd) as (o & Ho & Hlt). exists o. split; [done|lia].
      * exists (next_oid w). split; [|lia].
        unfold doc_id, created_event. by rewrite lookup_insert_eq.
    + rewrite fmap_app. apply NoDup_app. split; [done|].
      split; [|apply NoDup_singleton].
      intros x (d & -> & Hd)%list_elem_of_fmap Hx. simpl in Hx.
      apply list_elem_of_singleton in Hx.
      unfold doc_id at 2, created_event in Hx.
      rewrite lookup_insert_eq in Hx.
      destruct (Hb d Hd) as (o & Ho & Hlt). rewrite Hx in Ho.
      injection Ho as <-. lia.
  - apply first_match_Some in Hfm as (Hi & _).
    apply store_wf_iff in Hwf as [Hb Hnd]. apply store_wf_iff.
    rewrite Hc, Hn. unfold update_document. split.
    + intros d [-> | Hd]%elem_of_list_insert_inv; [|by apply Hb].
      rewrite doc_id_set. apply Hb. by eapply list_elem_of_lookup_2.
    + rewrite list_fmap_insert, doc_id_set, list_insert_id; [done|].
      by rewrite list_lookup_fmap, Hi.
  - apply store_wf_iff in Hwf as [Hb Hnd]. apply store_wf_iff.
    rewrite Hc, Hn. split.
    + intros d Hd%list_elem_of_delete_inv. by apply Hb.
    + rewrite list_fmap_delete.
      exact (sublist_NoDup _ _ Hnd (sublist_delete _ _)).
Qed.

(** Every store reached from the empty one satisfies the invariant. *)
Lemma serve_store_wf rs w :
  store_wf w = true → store_wf (serve rs w) = true.
Proof.
  revert w. unfold serve.
  induction rs as [|r rs IH]; intros w Hwf; simpl; [done|].
  apply IH. by apply handle_store_wf.
Qed.

Corollary reachable_store_wf rs : store_wf (serve rs empty_world) = true.
Proof. by apply serve_store_wf. Qed.

(** * Further properties of the handlers *)

(** ** Listing *)

Lemma filter_sublist (p : doc → bool) (l : list doc) :
  List.filter p l `sublist_of` l.
Proof.
  induction l as [|d l IH]; simpl; [constructor|].
  destruct (p d); [by apply sublist_skip | by apply sublist_cons].
Qed.

Lemma filter_inverted_range lo hi (l : list doc) :
  hi < lo → List.filter (matches (FDateRange lo hi)) l = [].
Proof.
  intros Hlt. induction l as [|d l IH]; simpl; [done|].
  destruct (d !! "date") as [[v|t|o]|]; try done.
  destruct ((lo <=? t) && (t <=? hi)) eqn:Hb; [|done].
  apply andb_true_iff in Hb. lia.
Qed.

(** X1. Listing all events answers 200 with the whole collection, in the
    store's order, through one [find({})]; the collection is not changed.
    On the empty store the listing is empty. *)
Theorem get_events_lists_whole_collection w :
  ∃ w',
    get_events w = (Returned (Response 200 (PDocs (coll w))), w') ∧
    coll w' = coll w ∧ next_oid w' = next_oid w ∧
    log w' = log w ++ [CFind FAll] ∧
    (coll w = [] → get_events w = (Returned (Response 200 (PDocs [])), w')).
Proof.
  eexists. split; [apply get_events_run|].
  simpl. repeat split. intros He.
  rewrite get_events_run. by rewrite He.
Qed.

(** X2. A range listing whose [start] or [end] is missing or empty is
    answered with 400; no store call is issued and the world is as it
    was. *)
Theorem range_requires_both_bounds s e w :
  truthy_param s = false ∨ truthy_param e = false →
  get_events_range s e w =
    (Returned (Response 400 (PError "Start and end dates are required" None)),
     w).
Proof. apply get_events_range_rejects. Qed.

(** X3. A range listing never changes the store, whatever its parameters:
    collection and identifier counter are as before, and the events it
    returns are a sub-sequence of the collection, in the store's order. *)
Theorem range_is_read_only s e w :
  ∃ resp w',
    get_events_range s e w = (Returned resp, w') ∧
    coll w' = coll w ∧ next_oid w' = next_oid w ∧
    ∀ evs, payload_of resp = PDocs evs → evs `sublist_of` coll w.
Proof.
  destruct (truthy_param s) eqn:Hs; [destruct (truthy_param e) eqn:He|].
  - rewrite get_events_range_run by done.
    eexists _, _. split; [reflexivity|]. simpl. repeat split.
    intros evs [= <-]. apply filter_sublist.
  - rewrite get_events_range_rejects by auto.
    eexists _, _. split; [reflexivity|]. simpl. by repeat split.
  - rewrite get_events_range_rejects by auto.
    eexists _, _. split; [reflexivity|]. simpl. by repeat split.
Qed.

(** X4. A range whose end date precedes its start date lists nothing: the
    answer is 200 with the empty sequence. *)
Theorem range_with_inverted_bounds_is_empty s e w :
  s ≠ "" → e ≠ "" →
  bson_date (Date_of (JStr e)) < bson_date (Date_of (JStr s)) →
  ∃ w', get_events_range (Some s) (Some e) w =
          (Returned (Response 200 (PDocs [])), w').
Proof.
  intros Hs He Hlt.
  rewrite get_events_range_run
    by (simpl; by apply negb_true_iff, String.eqb_neq).
  simpl. rewrite filter_inverted_range by done. by eexists.
Qed.

(** ** Unknown identifiers *)

(** X5. An update with a well-formed id that no stored record carries,
    and a [date] that [new Date] converts if there is one, is answered
    with 404 after a single [updateOne]; the record is not read back and
    the collection is unchanged. *)
Theorem update_unknown_id_not_found w id body o :
  ObjectId_of id = Some o →
  (∀ d, d ∈ coll w → doc_id d ≠ Some o) →
  Date_throws (body !! "date") = false →
  ∃ w',
    put_events_id id body w =
      (Returned (Response 404 (PError "Event not found" None)), w') ∧
    coll w' = coll w ∧
    log w' = log w ++ [CUpdateOne (FById o)
                         (update_document body (clock (tick w)))].
Proof.
  intros Hid Hno Hconv. eexists. split.
  - apply put_events_id_absent; [done | by apply first_match_absent | done].
  - done.
Qed.

(** X6. A delete with a well-formed id that no stored record carries is
    answered with 404 after a single [deleteOne]; the collection is
    unchanged. *)
Theorem delete_unknown_id_not_found w id o :
  ObjectId_of id = Some o →
  (∀ d, d ∈ coll w → doc_id d ≠ Some o) →
  ∃ w',
    delete_events_id id w =
      (Returned (Response 404 (PError "Event not found" None)), w') ∧
    coll w' = coll w ∧
    log w' = log w ++ [CDeleteOne (FById o)].
Proof.
  intros Hid Hno. eexists. split.
  - apply delete_events_id_absent; [done | by apply first_match_absent].
  - done.
Qed.

(** X12. With a store that answers, every request is answered with 200,
    201, 400, 404 or 500, and with 500 exactly when it passes its
    handler's guard and carries a [date] on which [new Date] throws; the
    world is then as it was: no clock reading, no store call. In
    particular [new ObjectId(id)] is only reached behind
    [ObjectId.isValid(id)] and never throws. *)
Theorem status_500_only_when_date_throws r w :
  ∃ resp w',
    handle r w = (Returned resp, w') ∧
    (status resp = 200 ∨ status resp = 201 ∨ status resp = 400
     ∨ status resp = 404 ∨ status resp = 500) ∧
    (status resp = 500 ↔ date_aborts r = true) ∧
    (status resp = 500 → w' = w).
Proof.
  destruct r as [|s e|body|id body|id]; cbn [handle date_aborts].
  - rewrite get_events_run. eexists _, _. split; [reflexivity|]. simpl.
    split; [tauto|]. split; [split|]; intros [=].
  - destruct (truthy_param s) eqn:Hs; [destruct (truthy_param e) eqn:He|].
    + rewrite get_events_range_run by done.
      eexists _, _. split; [reflexivity|]. simpl.
      split; [tauto|]. split; [split|]; intros [=].
    + rewrite get_events_range_rejects by auto.
      eexists _, _. split; [reflexivity|]. simpl.
      split; [tauto|]. split; [split|]; intros [=].
    + rewrite get_events_range_rejects by auto.
      eexists _, _. split; [reflexivity|]. simpl.
      split; [tauto|]. split; [split|]; intros [=].
  - destruct (truthy (body !! "title")) eqn:Ht.
    2: { rewrite post_events_rejects by auto.
         eexists _, _. split; [reflexivity|]. simpl.
         split; [tauto|]. split; [split|]; intros [=]. }
    destruct (truthy (body !! "date")) eqn:Hd.
    2: { rewrite post_events_rejects by auto.
         eexists _, _. split; [reflexivity|]. simpl.
         split; [tauto|]. split; [split|]; intros [=]. }
    destruct (truthy (body !! "type")) eqn:Hty.
    2: { rewrite post_events_rejects by auto.
         eexists _, _. split; [reflexivity|]. simpl.
         split; [tauto|]. split; [split|]; intros [=]. }
    destruct (Date_throws (body !! "date")) eqn:Hthrow; cbn [andb].
    + rewrite post_events_aborts by done.
      eexists _, _. split; [reflexivity|]. simpl.
      split; [tauto|]. by repeat split.
    + rewrite post_events_inserts by done.
      eexists _, _. split; [reflexivity|]. simpl.
      split; [tauto|]. split; [split|]; intros [=].
  - unfold ObjectId_isValid.
    destruct (ObjectId_of id) as [o|] eqn:Hid; cbn [andb].
    2: { rewrite put_events_id_invalid by done.
         eexists _, _. split; [reflexivity|]. simpl.
         split; [tauto|]. split; [split|]; intros [=]. }
    destruct (Date_throws (body !! "date")) eqn:Hthrow.
    { rewrite (put_events_id_aborts w id body o) by done.
      eexists _, _. split; [reflexivity|]. simpl.
      split; [tauto|]. by repeat split. }
    destruct (first_match (FById o) (coll w)) as [[i old]|] eqn:Hfm.
    + pose proof (put_events_id_found w id body o i old Hid Hfm Hthrow) as Hr.
      cbv zeta in Hr. rewrite Hr.
      eexists _, _. split; [reflexivity|]. simpl.
      split; [tauto|]. split; [split|]; intros [=].
    + rewrite (put_events_id_absent w id body o) by done.
      eexists _, _. split; [reflexivity|]. simpl.
      split; [tauto|]. split; [split|]; intros [=].
  - destruct (ObjectId_of id) as [o|] eqn:Hid.
    2: { rewrite delete_events_id_invalid by done.
         eexists _, _. split; [reflexivity|]. simpl.
         split; [tauto|]. split; [split|]; intros [=]. }
    destruct (first_match (FById o) (coll w)) as [[i d]|] eqn:Hfm.
    + rewrite (delete_events_id_found w id o i d) by done.
      eexists _, _. split; [reflexivity|]. simpl.
      split; [tauto|]. split; [split|]; intros [=].
    + rewrite (delete_events_id_absent w id o) by done.
      eexists _, _. split; [reflexivity|]. simpl.
      split; [tauto|]. split; [split|]; intros [=].
Qed.


(** ** Invariants of the stored events *)

Lemma update_document_union_lookup body t (old : doc) (k : string) :
  (update_document body t ∪ old) !! k =
    match update_document body t !! k with
    | Some v => Some v
    | None => old !! k
    end.
Proof.
  rewrite lookup_union.
  by destruct (update_document body t !! k), (old !! k).
Qed.

Lemma truthy_Some v : truthy v = true → ∃ j, v = Some j ∧ ToBoolean j = true.
Proof. destruct v as [j|]; [by exists j | done]. Qed.

Lemma created_event_complete body o tc tu :
  truthy (body !! "title") = true → truthy (body !! "type") = true →
  complete_event (created_event body o tc tu).
Proof.
  intros (t & Et & Ht)%truthy_Some (ty & Ety & Hty)%truthy_Some.
  exists t, (bson_date (Date_value (body !! "date"))), ty,
    (js_or (body !! "description") (JStr "")),
    (js_or (body !! "time") (JStr "")).
  unfold created_event. rewrite Et, Ety. simpl.
  repeat split; try done; by simplify_map_eq.
Qed.

Lemma updated_event_complete body t old :
  complete_event old → complete_event (update_document body t ∪ old).
Proof.
  intros (ot & oda & oty & ode & oti & H1 & H2 & H3 & H4 & H5 & H6 & H7).
  unfold complete_event.
  setoid_rewrite update_document_union_lookup.
  unfold update_document. setoid_rewrite update_set_lookup.
  repeat (case_decide; [done|]). simpl.
  destruct (truthy (body !! "title")) eqn:Et;
    [apply truthy_Some in Et as (t' & -> & Ht')|];
  destruct (truthy (body !! "type")) eqn:Ety;
    [apply truthy_Some in Ety as (ty' & -> & Hty')| |
     apply truthy_Some in Ety as (ty' & -> & Hty')|];
  destruct (truthy (body !! "date")), (body !! "description") as [de'|],
    (body !! "time") as [ti'|]; simpl;
  eexists _, _, _, _, _; repeat split; try reflexivity; eassumption.
Qed.

Lemma handle_complete r w :
  (∀ d, d ∈ coll w → complete_event d) →
  ∀ d, d ∈ coll (snd (handle r w)) → complete_event d.
Proof.
  intros Hinv d.
  destruct (handle_cases r w) as (resp & w' & Hrun & _ & Hcases).
  rewrite Hrun. simpl.
  destruct Hcases as [(-> & _)
    | [(body & _ & _ & Ht & _ & Hty & _ & -> & _)
    | [(id & body & o & i & old & _ & _ & _ & Hfm & _ & -> & _)
    | (id & o & i & d0 & _ & _ & _ & _ & -> & _)]]].
  - apply Hinv.
  - intros [Hd | ->%list_elem_of_singleton]%elem_of_app; [by apply Hinv|].
    by apply created_event_complete.
  - intros [-> | Hd]%elem_of_list_insert_inv; [|by apply Hinv].
    apply updated_event_complete, Hinv.
    apply first_match_Some in Hfm as (Hi & _).
    by eapply list_elem_of_lookup_2.
  - intros Hd%list_elem_of_delete_inv. by apply Hinv.
Qed.

(** X10. No incomplete record is ever stored: after any sequence of
    requests served from the empty store, every stored event has a truthy
    [title] and [type], a date, and JSON values for [description] and
    [time]. Updates cannot blank a required field. *)
Theorem stored_events_stay_complete rs d :
  d ∈ coll (serve rs empty_world) → complete_event d.
Proof.
  assert (H : ∀ w, (∀ d, d ∈ coll w → complete_event d) →
                   ∀ d, d ∈ coll (serve rs w) → complete_event d).
  { unfold serve. induction rs as [|r rs IH]; intros w Hinv; simpl; [done|].
    apply IH. by apply handle_complete. }
  apply H. intros d' Hd'. simpl in Hd'. by apply elem_of_nil in Hd'.
Qed.

(** X15. Identifiers stay unique: after any sequence of requests served
    from the empty store, every stored event carries an identifier and no
    two stored events carry the same one. *)
Theorem identifiers_stay_unique rs :
  (∀ d, d ∈ coll (serve rs empty_world) → is_Some (doc_id d)) ∧
  ∀ i j d d',
    coll (serve rs empty_world) !! i = Some d →
    coll (serve rs empty_world) !! j = Some d' →
    doc_id d = doc_id d' → i = j.
Proof.
  assert (Hwf : store_wf (serve rs empty_world) = true)
    by by apply serve_store_wf.
  apply store_wf_iff in Hwf as [Hb Hnd]. split.
  - intros d Hd. destruct (Hb d Hd) as (o & -> & _). by eexists.
  - intros i j d d' Hi Hj Heq.
    eapply NoDup_lookup; [exact Hnd | |].
    + by rewrite list_lookup_fmap, Hi.
    + by rewrite list_lookup_fmap, Hj, Heq.
Qed.

(** ** Requests in sequence *)

Lemma delete_last (l : list doc) (x : doc) : delete (length l) (l ++ [x]) = l.
Proof. induction l as [|y l IH]; simpl; [done | by rewrite IH]. Qed.

Lemma post_events_created_event w body :
  store_wf w = true →
  truthy (body !! "title") = true →
  truthy (body !! "date") = true →
  truthy (body !! "type") = true →
  Date_throws (body !! "date") = false →
  post_events body w =
    (Returned (Response 201 (PDoc (Some
       (created_event body (next_oid w) (clock (tick w))
          (clock (S (tick w))))))),
     {| coll := coll w ++ [created_event body (next_oid w) (clock (tick w))
                             (clock (S (tick w)))];
        next_oid := N.succ (next_oid w);
        log := log w ++ [CInsertOne (delete "_id"
                           (created_event body (next_oid w) (clock (tick w))
                              (clock (S (tick w)))));
                         CFindOne (FById (next_oid w))];
        tick := S (S (tick w)) |}).
Proof.
  intros Hwf Ht Hd Hty Hconv.
  rewrite (post_events_inserts body w Ht Hd Hty Hconv).
  unfold created_event at 1. by rewrite (first_match_fresh w _ Hwf).
Qed.

(** X7. Creating an event, with a [date] that [new Date] converts, and
    deleting it by the identifier the store assigned gives the collection
    back as it was: 201, then 200. *)
Theorem create_then_delete_restores_collection w body id :
  store_wf w = true →
  truthy (body !! "title") = true →
  truthy (body !! "date") = true →
  truthy (body !! "type") = true →
  Date_throws (body !! "date") = false →
  ObjectId_of id = Some (next_oid w) →
  ∃ new w1 w2,
    post_events body w = (Returned (Response 201 (PDoc (Some new))), w1) ∧
    doc_id new = Some (next_oid w) ∧
    delete_events_id id w1 =
      (Returned (Response 200 (PMessage "Event deleted successfully")), w2) ∧
    coll w2 = coll w.
Proof.
  intros Hwf Ht Hd Hty Hconv Hid.
  eexists _, _, _. split; [by apply post_events_created_event|].
  split; [unfold doc_id, created_event; by rewrite lookup_insert_eq|].
  split.
  - eapply delete_events_id_found; [exact Hid|]. simpl.
    apply (first_match_fresh w _ Hwf).
  - simpl. apply delete_last.
Qed.

(** X8. An event created with a date string is listed by the range whose
    two bounds are that same string: both bounds are inclusive, and the
    handlers construct the stored date and the bounds the same way. *)
Theorem create_then_range_on_its_date w body s :
  store_wf w = true →
  truthy (body !! "title") = true →
  truthy (body !! "type") = true →
  body !! "date" = Some (JStr s) → s ≠ "" →
  ∃ new w1 evs w2,
    post_events body w = (Returned (Response 201 (PDoc (Some new))), w1) ∧
    get_events_range (Some s) (Some s) w1 =
      (Returned (Response 200 (PDocs evs)), w2) ∧
    new ∈ evs.
Proof.
  intros Hwf Ht Hty Hd Hs.
  assert (Htd : truthy (body !! "date") = true).
  { rewrite Hd. simpl. by apply String.eqb_neq in Hs as ->. }
  assert (Hconv : Date_throws (body !! "date") = false) by by rewrite Hd.
  eexists _, _, _, _. split; [by apply post_events_created_event|].
  rewrite get_events_range_run
    by (simpl; by apply negb_true_iff, String.eqb_neq).
  simpl. split; [reflexivity|].
  apply list_elem_of_In, filter_In. split.
  - apply list_elem_of_In, elem_of_app. right. apply list_elem_of_here.
  - unfold matches, created_event. rewrite Hd. simpl.
    rewrite lookup_insert_ne by done.
    do 2 (rewrite lookup_insert_ne by done). rewrite lookup_insert_eq.
    apply andb_true_iff. lia.
Qed.

Lemma update_document_lookup_ne body t t' (k : string) :
  k ≠ "updatedAt" →
  update_document body t !! k = update_document body t' !! k.
Proof.
  intros Hk. unfold update_document. rewrite !update_set_lookup.
  by case_decide.
Qed.

(** X9. Repeating an update, with a [date] that [new Date] converts if
    there is one, changes nothing but [updatedAt]: the second answer is
    the first one's record with [updatedAt] set to the later clock
    reading, and that is what the store then holds. *)
Theorem repeated_update_changes_only_updatedAt w id body o i old :
  ObjectId_of id = Some o →
  first_match (FById o) (coll w) = Some (i, old) →
  Date_throws (body !! "date") = false →
  ∃ new1 w1 new2 w2,
    put_events_id id body w =
      (Returned (Response 200 (PDoc (Some new1))), w1) ∧
    put_events_id id body w1 =
      (Returned (Response 200 (PDoc (Some new2))), w2) ∧
    new2 = <["updatedAt" := BDate (clock (S (tick w)))]> new1 ∧
    coll w2 = <[i := new2]> (coll w).
Proof.
  intros Hid Hfm Hconv.
  pose proof (put_events_id_found w id body o i old Hid Hfm Hconv) as Hrun1.
  cbv zeta in Hrun1.
  pose proof (updated_still_first (coll w) body o i old
                (Date (clock (tick w))) Hfm) as Hfm1.
  eexists _, _, _, _. split; [exact Hrun1|]. split.
  - eapply put_events_id_found; [exact Hid | exact Hfm1 | exact Hconv].
  - simpl. split; [|by rewrite list_insert_insert_eq].
    apply map_eq. intros k.
    fold (update_document body (clock (tick w))).
    fold (update_document body (clock (S (tick w)))).
    rewrite !update_document_union_lookup.
    destruct (decide (k = "updatedAt")) as [-> | Hk].
    + rewrite lookup_insert_eq. unfold update_document.
      by rewrite update_set_updatedAt.
    + rewrite lookup_insert_ne by done.
      rewrite update_document_union_lookup.
      rewrite (update_document_lookup_ne body (clock (S (tick w)))
                 (clock (tick w)) k Hk).
      by destruct (update_document body (clock (tick w)) !! k).
Qed.

(** X17. Once an event is deleted, an update with its id, and a [date]
    that [new Date] converts if there is one, is answered with 404 and
    stores nothing. *)
Theorem update_after_delete_not_found w id body o d :
  store_wf w = true →
  ObjectId_of id = Some o →
  d ∈ coll w → doc_id d = Some o →
  Date_throws (body !! "date") = false →
  ∃ w1 w2,
    delete_events_id id w =
      (Returned (Response 200 (PMessage "Event deleted successfully")), w1) ∧
    put_events_id id body w1 =
      (Returned (Response 404 (PError "Event not found" None)), w2) ∧
    coll w2 = coll w1.
Proof.
  intros Hwf Hid Hd Ho Hconv.
  destruct (first_match (FById o) (coll w)) as [[i d0]|] eqn:Hfm.
  2: { apply first_match_None with (d := d) in Hfm; [|done].
       apply matches_id_doc_id in Ho. congruence. }
  pose proof (first_match_delete _ _ _ _ (store_wf_NoDup _ Hwf) Hfm) as Hgone.
  eexists _, _. split; [by eapply delete_events_id_found|].
  split; [by apply put_events_id_absent|]. done.
Qed.

(** ** Fields of created and updated records *)

(** X13. A record created from a body whose [date] [new Date] converts
    has exactly the eight fields [_id], [title],
    [description], [date], [type], [time], [createdAt] and [updatedAt],
    whatever other keys the body carries; a [description] or [time] that
    is missing or falsy ([null], [false], [0], the empty string) is stored
    as the empty string, a truthy one as it is. *)
Theorem create_stores_eight_fields w body :
  store_wf w = true →
  truthy (body !! "title") = true →
  truthy (body !! "date") = true →
  truthy (body !! "type") = true →
  Date_throws (body !! "date") = false →
  ∃ new w',
    post_events body w = (Returned (Response 201 (PDoc (Some new))), w') ∧
    dom new = ({[ "_id"; "title"; "description"; "date"; "type"; "time";
                  "createdAt"; "updatedAt" ]} : gset string) ∧
    (∀ k : string, k ∈ ["description"; "time"] →
       (truthy (body !! k) = false → new !! k = Some (BJson (JStr ""))) ∧
       (truthy (body !! k) = true → new !! k = BJson <$> body !! k)).
Proof.
  intros Hwf Ht Hd Hty Hconv.
  eexists _, _. split; [by apply post_events_created_event|]. split.
  - unfold created_event. rewrite !dom_insert_L, dom_singleton_L.
    apply set_eq. intros k. rewrite !elem_of_union, !elem_of_singleton.
    clear. tauto.
  - intros k Hk.
    assert (Hl : created_event body (next_oid w) (clock (tick w))
                   (clock (S (tick w))) !! k
                 = Some (BJson (js_or (body !! k) (JStr "")))).
    { rewrite !elem_of_cons, elem_of_nil in Hk. unfold created_event.
      destruct Hk as [-> | [-> | []]]; by simplify_map_eq. }
    rewrite Hl. unfold js_or, truthy.
    destruct (body !! k) as [j|]; simpl; split; intros Hb; try done;
      by rewrite Hb.
Qed.

(** X14. How an update, with a [date] that [new Date] converts if there
    is one, treats each of the five fields of a stored record:
    a [description] or [time] with any defined value, [null] and [false]
    included, is stored as given; a [title] or [type] is stored when
    truthy and left as it was when missing or falsy; a truthy [date] is
    stored as the date constructed from it and a missing or falsy one
    leaves the stored date. *)
Theorem update_field_by_field w id body o i old :
  ObjectId_of id = Some o →
  first_match (FById o) (coll w) = Some (i, old) →
  Date_throws (body !! "date") = false →
  ∃ new w',
    put_events_id id body w = (Returned (Response 200 (PDoc (Some new))), w') ∧
    (∀ (k : string) v, k ∈ ["description"; "time"] →
       body !! k = Some v → new !! k = Some (BJson v)) ∧
    (∀ k : string, k ∈ ["title"; "type"] →
       (truthy (body !! k) = true → new !! k = BJson <$> body !! k) ∧
       (truthy (body !! k) = false → new !! k = old !! k)) ∧
    (truthy (body !! "date") = true →
       new !! "date" = Some (BDate (bson_date (Date_value (body !! "date"))))) ∧
    (truthy (body !! "date") = false → new !! "date" = old !! "date").
Proof.
  intros Hid Hfm Hconv.
  pose proof (put_events_id_found w id body o i old Hid Hfm Hconv) as Hrun.
  cbv zeta in Hrun. eexists _, _. split; [exact Hrun|].
  fold (update_document body (clock (tick w))).
  split; [|split; [|split]].
  - intros k v Hk Hb. rewrite !elem_of_cons, elem_of_nil in Hk.
    rewrite update_document_union_lookup. unfold update_document.
    rewrite update_set_lookup.
    destruct Hk as [-> | [-> | []]]; rewrite Hb; by repeat case_decide.
  - intros k Hk. rewrite !elem_of_cons, elem_of_nil in Hk.
    rewrite update_document_union_lookup. unfold update_document.
    rewrite update_set_lookup.
    destruct Hk as [-> | [-> | []]]; split; intros Hb;
      repeat (case_decide; [done|]); rewrite decide_True by done;
      rewrite Hb; try done.
    all: by apply truthy_Some in Hb as (j & -> & _).
  - intros Hb. rewrite update_document_union_lookup. unfold update_document.
    rewrite update_set_lookup.
    repeat (case_decide; [done|]). rewrite decide_True by done.
    by rewrite Hb.
  - intros Hb. rewrite update_document_union_lookup. unfold update_document.
    rewrite update_set_lookup.
    repeat (case_decide; [done|]). rewrite decide_True by done.
    by rewrite Hb.
Qed.

(** ** The health check *)

(** X16. The health check always answers, and never touches the events:
    200 with status [ok] whenever the ping returns, reporting [connected]
    or [disconnected] by its flag, with the clock's reading as timestamp;
    500 with the exception's message when the ping throws, before any
    clock reading. Collection, identifier counter and call log are as
    before in both cases. *)
Theorem health_check_always_answers (ping_outcome : outcome bool)
    (iso_string : Z → string) w :
  ∃ resp w',
    get_health ping_outcome iso_string w = (Returned resp, w') ∧
    coll w' = coll w ∧ next_oid w' = next_oid w ∧ log w' = log w ∧
    match ping_outcome with
    | Returned b =>
        resp = HealthResponse 200
                 (HealthOk "ok" (if b then "connected" else "disconnected")
                    (iso_string (clock (tick w))))
    | Thrown msg =>
        resp = HealthResponse 500
                 (HealthError "error" "Health check failed" msg)
        ∧ tick w' = tick w
    end.
Proof.
  unfold get_health, try_catch, bind, database_ping, new_Date_now,
    toISOString, ret.
  destruct ping_outcome as [b | msg]; simpl;
    eexists _, _; (split; [reflexivity|]); simpl; by repeat split.
Qed.

(** ** Identity of records over time *)

Lemma handle_next_oid r w : (next_oid w ≤ next_oid (snd (handle r w)))%N.
Proof.
  destruct (handle_cases r w) as (resp & w' & Hrun & _ & Hcases).
  rewrite Hrun. simpl.
  destruct Hcases as [(_ & -> & _)
    | [(? & _ & _ & _ & _ & _ & _ & _ & -> & _)
    | [(? & ? & ? & ? & ? & _ & _ & _ & _ & _ & _ & -> & _)
    | (? & ? & ? & ? & _ & _ & _ & _ & _ & ->)]]]; lia.
Qed.

(** A record that carries an identifier handed out before the request was
    stored before it, with the same [createdAt]. *)
Lemma handle_descent r w d' o :
  d' ∈ coll (snd (handle r w)) → doc_id d' = Some o → (o < next_oid w)%N →
  ∃ d, d ∈ coll w ∧ doc_id d = Some o ∧ d' !! "createdAt" = d !! "createdAt".
Proof.
  destruct (handle_cases r w) as (resp & w' & Hrun & _ & Hcases).
  rewrite Hrun. simpl. intros Hd' Ho Hlt.
  destruct Hcases as [(Hc & _)
    | [(body & _ & _ & _ & _ & _ & _ & Hc & _)
    | [(id & body & o' & i & old & _ & _ & _ & Hfm & _ & Hc & _)
    | (id & o' & i & d0 & _ & _ & _ & _ & Hc & _)]]];
    rewrite Hc in Hd'.
  - by exists d'.
  - apply elem_of_app in Hd' as [Hd' | ->%list_elem_of_singleton];
      [by exists d'|].
    unfold doc_id, created_event in Ho. rewrite lookup_insert_eq in Ho.
    injection Ho as <-. lia.
  - apply elem_of_list_insert_inv in Hd' as [-> | Hd']; [|by exists d'].
    apply first_match_Some in Hfm as (Hi%list_elem_of_lookup_2 & _).
    exists old. split; [done|].
    unfold update_document in *. rewrite doc_id_set in Ho. split; [done|].
    rewrite lookup_union_r; [done|].
    rewrite update_set_lookup. by repeat case_decide.
  - apply list_elem_of_delete_inv in Hd'. by exists d'.
Qed.

Lemma serve_descent rs w d' o :
  d' ∈ coll (serve rs w) → doc_id d' = Some o → (o < next_oid w)%N →
  ∃ d, d ∈ coll w ∧ doc_id d = Some o ∧ d' !! "createdAt" = d !! "createdAt".
Proof.
  revert w. unfold serve.
  induction rs as [|r rs IH]; intros w Hd' Ho Hlt; simpl in Hd'.
  - by exists d'.
  - pose proof (handle_next_oid r w) as Hmono.
    destruct (IH _ Hd' Ho) as (d1 & Hd1 & Ho1 & Hc1); [lia|].
    destruct (handle_descent r w d1 o Hd1 Ho1 Hlt) as (d & Hd & Hod & Hc).
    exists d. split; [done|]. split; [done|]. congruence.
Qed.

(** X19. [createdAt] is fixed at creation: in a run from the empty store,
    an event seen after some requests and the event with the same
    identifier seen after further ones have the same [createdAt]. *)
Theorem createdAt_never_changes rs1 rs2 d d' o :
  d ∈ coll (serve rs1 empty_world) → doc_id d = Some o →
  d' ∈ coll (serve rs2 (serve rs1 empty_world)) → doc_id d' = Some o →
  d' !! "createdAt" = d !! "createdAt".
Proof.
  intros Hd Ho Hd' Ho'.
  assert (Hwf : store_wf (serve rs1 empty_world) = true)
    by by apply serve_store_wf.
  destruct (store_wf_bound _ d Hwf Hd) as (o1 & Ho1 & Hlt).
  assert (o1 = o) as -> by congruence.
  destruct (serve_descent rs2 _ d' o Hd' Ho' Hlt) as (d0 & Hd0 & Ho0 & Hc).
  assert (d0 = d) as ->; [|done].
  apply list_elem_of_lookup in Hd as [i Hi], Hd0 as [j Hj].
  assert (i = j) as ->; [|congruence].
  eapply NoDup_lookup; [exact (store_wf_NoDup _ Hwf) | |].
  - by rewrite list_lookup_fmap, Hi; simpl; rewrite Ho.
  - by rewrite list_lookup_fmap, Hj; simpl; rewrite Ho0.
Qed.

(** X20. Identifiers are never reused: once an event is deleted, no
    sequence of later requests stores an event under its identifier. *)
Theorem deleted_id_never_returns w id o d rs :
  store_wf w = true →
  ObjectId_of id = Some o →
  d ∈ coll w → doc_id d = Some o →
  ∃ w1,
    delete_events_id id w =
      (Returned (Response 200 (PMessage "Event deleted successfully")), w1) ∧
    ∀ d', d' ∈ coll (serve rs w1) → doc_id d' ≠ Some o.
Proof.
  intros Hwf Hid Hd Ho.
  destruct (first_match (FById o) (coll w)) as [[i d0]|] eqn:Hfm.
  2: { apply first_match_None with (d := d) in Hfm; [|done].
       apply matches_id_doc_id in Ho. congruence. }
  pose proof (first_match_delete _ _ _ _ (store_wf_NoDup _ Hwf) Hfm) as Hgone.
  destruct (store_wf_bound _ d Hwf Hd) as (o1 & Ho1 & Hlt).
  assert (o1 = o) as -> by congruence.
  eexists. split; [by eapply delete_events_id_found|].
  intros d' Hd' Ho'.
  destruct (serve_descent rs _ d' o Hd' Ho') as (d1 & Hd1 & Ho1' & _);
    [exact Hlt|].
  simpl in Hd1. apply matches_id_doc_id in Ho1'.
  by rewrite (first_match_None _ _ Hgone d1 Hd1) in Ho1'.
Qed.

(** ** Store calls per request *)

Lemma handle_calls r w :
  ∃ resp w' calls,
    handle r w = (Returned resp, w') ∧
    log w' = log w ++ calls ∧
    (length calls ≤ 2)%nat ∧
    (length (List.filter is_write calls) ≤ 1)%nat ∧
    (status resp = 400 → w' = w).
Proof.
  destruct r as [|s e|body|id body|id]; cbn [handle].
  - rewrite get_events_run.
    eexists _, _, [_]. split; [reflexivity|]. simpl.
    repeat split; try reflexivity; simpl; try lia; intros [=].
  - destruct (truthy_param s) eqn:Hs; [destruct (truthy_param e) eqn:He|].
    + rewrite get_events_range_run by done.
      eexists _, _, [_]. split; [reflexivity|]. simpl.
      repeat split; try reflexivity; simpl; try lia; intros [=].
    + rewrite get_events_range_rejects by auto.
      eexists _, _, []. split; [reflexivity|]. rewrite app_nil_r. simpl.
      repeat split; try done; simpl; lia.
    + rewrite get_events_range_rejects by auto.
      eexists _, _, []. split; [reflexivity|]. rewrite app_nil_r. simpl.
      repeat split; try done; simpl; lia.
  - destruct (truthy (body !! "title")) eqn:Ht.
    2: { rewrite post_events_rejects by auto.
         eexists _, _, []. split; [reflexivity|]. rewrite app_nil_r. simpl.
         repeat split; try done; simpl; lia. }
    destruct (truthy (body !! "date")) eqn:Hd.
    2: { rewrite post_events_rejects by auto.
         eexists _, _, []. split; [reflexivity|]. rewrite app_nil_r. simpl.
         repeat split; try done; simpl; lia. }
    destruct (truthy (body !! "type")) eqn:Hty.
    2: { rewrite post_events_rejects by auto.
         eexists _, _, []. split; [reflexivity|]. rewrite app_nil_r. simpl.
         repeat split; try done; simpl; lia. }
    destruct (Date_throws (body !! "date")) eqn:Hthrow.
    + rewrite post_events_aborts by done.
      eexists _, _, []. split; [reflexivity|]. rewrite app_nil_r. simpl.
      repeat split; try done; simpl; lia.
    + rewrite post_events_inserts by done.
      eexists _, _, [_; _]. split; [reflexivity|]. simpl.
      repeat split; try reflexivity; simpl; try lia; intros [=].
  - destruct (ObjectId_of id) as [o|] eqn:Hid.
    2: { rewrite put_events_id_invalid by done.
         eexists _, _, []. split; [reflexivity|]. rewrite app_nil_r. simpl.
         repeat split; try done; simpl; lia. }
    destruct (Date_throws (body !! "date")) eqn:Hthrow.
    { rewrite (put_events_id_aborts w id body o) by done.
      eexists _, _, []. split; [reflexivity|]. rewrite app_nil_r. simpl.
      repeat split; try done; simpl; lia. }
    destruct (first_match (FById o) (coll w)) as [[i old]|] eqn:Hfm.
    + pose proof (put_events_id_found w id body o i old Hid Hfm Hthrow) as Hr.
      cbv zeta in Hr. rewrite Hr.
      eexists _, _, [_; _]. split; [reflexivity|]. simpl.
      repeat split; try reflexivity; simpl; try lia; intros [=].
    + rewrite (put_events_id_absent w id body o) by done.
      eexists _, _, [_]. split; [reflexivity|]. simpl.
      repeat split; try reflexivity; simpl; try lia; intros [=].
  - destruct (ObjectId_of id) as [o|] eqn:Hid.
    2: { rewrite delete_events_id_invalid by done.
         eexists _, _, []. split; [reflexivity|]. rewrite app_nil_r. simpl.
         repeat split; try done; simpl; lia. }
    destruct (first_match (FById o) (coll w)) as [[i d]|] eqn:Hfm.
    + rewrite (delete_events_id_found w id o i d) by done.
      eexists _, _, [_]. split; [reflexivity|]. simpl.
      repeat split; try reflexivity; simpl; try lia; intros [=].
    + rewrite (delete_events_id_absent w id o) by done.
      eexists _, _, [_]. split; [reflexivity|]. simpl.
      repeat split; try reflexivity; simpl; try lia; intros [=].
Qed.

(** X18. A request answered with 400 has had no effect at all: the world
    after it, call log and clock readings included, is the world before
    it. Validation comes before every store call and clock reading. *)
Theorem status_400_means_no_effect r w resp w' :
  handle r w = (Returned resp, w') → status resp = 400 → w' = w.
Proof.
  intros Hrun Hst.
  destruct (handle_calls r w) as (resp0 & w0 & calls & Hrun0 & _ & _ & _ & H).
  rewrite Hrun in Hrun0. injection Hrun0 as <- <-. by apply H.
Qed.

(** X21. A request issues at most two store calls, and at most one of
    them writes: no handler inserts, updates or deletes twice. *)
Theorem at_most_one_write_per_request r w :
  ∃ resp w' calls,
    handle r w = (Returned resp, w') ∧
    log w' = log w ++ calls ∧
    (length calls ≤ 2)%nat ∧
    (length (List.filter is_write calls) ≤ 1)%nat.
Proof.
  destruct (handle_calls r w) as (resp & w' & calls & H1 & H2 & H3 & H4 & _).
  by exists resp, w', calls.
Qed.

End Service.

(** * The properties at concrete requests *)

Example Date_of_iso_halloween :
  Date_of_iso (JStr "2024-10-31") = Date 1730332800000.
Proof. vm_compute. reflexivity. Qed.

Example ObjectId_of_hex_case :
  ObjectId_of_hex "0000000000000000000000fF" = Some 255%N
  ∧ ObjectId_of_hex "not-an-id" = None.
Proof. split; vm_compute; reflexivity. Qed.

Example create_ritual_in_empty_store :
  coll (serve ms_clock Date_of_iso ObjectId_of_hex 0 [PostEvents ritual]
          empty_world)
  = coll one_event_world.
Proof. vm_compute. reflexivity. Qed.

(** Updating only [time] of the stored ritual: every other field but
    [updatedAt] keeps its value. *)
Lemma update_keeps_unsupplied_fields_witness :
  ObjectId_of_hex id0 = Some 0%N ∧
  first_match (FById 0) (coll one_event_world)
    = Some (0%nat, ritual_stored 1730332800000 1730332800001) ∧
  ∃ new w',
    put_events_id ms_clock Date_of_iso ObjectId_of_hex 0 id0 time_only
      one_event_world
      = (Returned (Response 200 (PDoc (Some new))), w') ∧
    ∀ k : string, ¬ supplied time_only k → k ≠ "updatedAt" →
      new !! k = ritual_stored 1730332800000 1730332800001 !! k.
Proof.
  split; [vm_compute; reflexivity|]. split; [vm_compute; reflexivity|].
  destruct (update_keeps_unsupplied_fields ms_clock Date_of_iso
              ObjectId_of_hex 0 one_event_world id0 time_only 0%N 0%nat
              (ritual_stored 1730332800000 1730332800001))
    as (resp & new & w' & Hrun & _ & _ & Hframe & H200 & _);
    [vm_compute; reflexivity | vm_compute; reflexivity |].
  exists new, w'. split; [|assumption].
  rewrite <- H200; [assumption | vm_compute; reflexivity].
Defined.

(** C3 as stated fails: an empty [description] sent together with a
    [date] on which [new Date] throws is not applied; the answer is 500
    and the stored description stays. *)
Lemma update_empty_description_aborted_counterexample :
  empty_description_unprintable_date !! "description" = Some (JStr "") ∧
  first_match (FById 0) (coll described_world) = Some (0%nat, gathering_stored) ∧
  gathering_stored !! "description" = Some (BJson (JStr "Gathering")) ∧
  put_events_id ms_clock Date_of_iso ObjectId_of_hex 0 id0
    empty_description_unprintable_date described_world
  = (Returned (Response 500
       (PError "Failed to update event"
               (Some "Cannot convert object to primitive value"))),
     described_world).
Proof. repeat split; vm_compute; reflexivity. Qed.

(** An empty [description] is written, an empty [title] is dropped. *)
Lemma update_empty_string_asymmetry_witness :
  ∃ set new w',
    put_events_id ms_clock Date_of_iso ObjectId_of_hex 0 id0 empty_strings
      one_event_world
      = (Returned (Response 200 (PDoc (Some new))), w') ∧
    log w' = [CUpdateOne (FById 0) set; CFindOne (FById 0)] ∧
    set !! "description" = Some (BJson (JStr "")) ∧
    set !! "title" = None ∧
    new !! "title" = Some (BJson (JStr "Ritual")).
Proof.
  destruct (update_empty_string_asymmetry ms_clock Date_of_iso
              ObjectId_of_hex 0 one_event_world id0 empty_strings 0%N 0%nat
              (ritual_stored 1730332800000 1730332800001))
    as (set & new & w' & Hrun & Hlog & _ & Hdef & Hfalsy);
    [vm_compute; reflexivity | vm_compute; reflexivity
    | vm_compute; reflexivity |].
  exists set, new, w'. split; [assumption|]. split; [assumption|].
  destruct (Hdef "description") as [Hs _];
    [rewrite !elem_of_cons; tauto | vm_compute; reflexivity |].
  destruct (Hfalsy "title") as [Ht Hn];
    [rewrite !elem_of_cons; tauto | vm_compute; reflexivity |].
  split; [assumption|]. split; [assumption|].
  rewrite Hn. vm_compute. reflexivity.
Defined.

(** An update with an empty body rewrites [updatedAt] only. *)
Lemma update_with_no_fields_refreshes_updatedAt_witness :
  ∃ new w',
    put_events_id ms_clock Date_of_iso ObjectId_of_hex 0 id0 ∅
      one_event_world
      = (Returned (Response 200 (PDoc (Some new))), w') ∧
    new = ritual_stored 1730332800000 1730332800002.
Proof.
  destruct (update_with_no_fields_refreshes_updatedAt ms_clock Date_of_iso
              ObjectId_of_hex 0 one_event_world id0 ∅ 0%N 0%nat
              (ritual_stored 1730332800000 1730332800001))
    as (set & new & w' & Hrun & _ & _ & _ & Hnew & _);
    [vm_compute; reflexivity | vm_compute; reflexivity
    | intros k _; apply lookup_empty |].
  exists new, w'. split; [assumption|].
  rewrite Hnew. vm_compute. reflexivity.
Defined.

(** A create request without [title] is refused and nothing is stored. *)
Lemma create_rejects_missing_required_fields_witness :
  post_events ms_clock Date_of_iso 0 no_title one_event_world =
    (Returned (Response 400
       (PError "Missing required fields: title, date, and type are required"
               None)), one_event_world).
Proof.
  apply (create_rejects_missing_required_fields ms_clock Date_of_iso 0
           no_title one_event_world).
  left. vm_compute. reflexivity.
Defined.

(** An id that is not 24 hexadecimal digits is refused by both handlers. *)
Lemma invalid_id_rejected_without_store_call_witness :
  ObjectId_isValid ObjectId_of_hex "not-an-id" = false ∧
  put_events_id ms_clock Date_of_iso ObjectId_of_hex 0 "not-an-id" time_only
    one_event_world
    = (Returned (Response 400 (PError "Invalid event ID" None)),
       one_event_world) ∧
  delete_events_id ObjectId_of_hex "not-an-id" one_event_world
    = (Returned (Response 400 (PError "Invalid event ID" None)),
       one_event_world).
Proof.
  split; [vm_compute; reflexivity|].
  apply (invalid_id_rejected_without_store_call ms_clock Date_of_iso
           ObjectId_of_hex 0 "not-an-id" time_only one_event_world).
  vm_compute. reflexivity.
Defined.

(** Deleting the stored ritual twice: 200, then 404. *)
Lemma delete_twice_ok_then_not_found_witness :
  store_wf one_event_world = true ∧
  ∃ w1 w2,
    delete_events_id ObjectId_of_hex id0 one_event_world =
      (Returned (Response 200 (PMessage "Event deleted successfully")), w1) ∧
    delete_events_id ObjectId_of_hex id0 w1 =
      (Returned (Response 404 (PError "Event not found" None)), w2).
Proof.
  split; [vm_compute; reflexivity|].
  destruct (delete_twice_ok_then_not_found ObjectId_of_hex one_event_world
              id0 0%N (ritual_stored 1730332800000 1730332800001))
    as (w1 & w2 & H1 & H2 & _);
    [vm_compute; reflexivity | vm_compute; reflexivity
    | apply list_elem_of_here | vm_compute; reflexivity |].
  exists w1, w2. split; assumption.
Defined.

(** C4 as stated fails: with [start] present but empty the handler
    answers 400 and returns no events at all; and with bounds that are
    present but are not dates, here with a driver that writes the Invalid
    Date as the epoch, it lists the event dated at the epoch. *)
Lemma range_bounds_counterexample :
  get_events_range Date_of_iso 0 (Some "") (Some "2024-12-31")
    one_event_world
  = (Returned (Response 400 (PError "Start and end dates are required" None)),
     one_event_world)
  ∧ Date_of_iso (JStr "foo") = InvalidDate
  ∧ Date_of_iso (JStr "bar") = InvalidDate
  ∧ ∃ w', get_events_range Date_of_iso 0 (Some "foo") (Some "bar") epoch_world
          = (Returned (Response 200 (PDocs [epoch_stored])), w').
Proof.
  split; [vm_compute; reflexivity|]. split; [vm_compute; reflexivity|].
  split; [vm_compute; reflexivity|]. eexists. vm_compute. reflexivity.
Qed.

(** The ritual of 2024-10-31 is listed for October 2024, whose last day
    is the ritual's own date. *)
Lemma range_lists_events_within_bounds_witness :
  ∃ evs w',
    get_events_range Date_of_iso 0 (Some "2024-10-01") (Some "2024-10-31")
      one_event_world
      = (Returned (Response 200 (PDocs evs)), w') ∧
    ritual_stored 1730332800000 1730332800001 ∈ evs.
Proof.
  destruct (range_lists_events_within_bounds Date_of_iso 0 one_event_world
              "2024-10-01" "2024-10-31" 1727740800000 1730332800000)
    as (evs & w' & Hrun & _ & Hin);
    [discriminate | discriminate | vm_compute; reflexivity
    | vm_compute; reflexivity |].
  exists evs, w'. split; [assumption|].
  apply Hin. split; [apply list_elem_of_here|].
  exists 1730332800000. split; [vm_compute; reflexivity|].
  vm_compute. split; discriminate.
Defined.

(** C2 as stated fails: when the clock advances between the two readings
    of the create handler, the record's [createdAt] and [updatedAt]
    differ; a truthy [date] on which [new Date] throws is answered with
    500 and nothing is stored; and a truthy [date] that is not a date is
    stored, here with a driver that writes the Invalid Date as the epoch,
    as the epoch. *)
Lemma create_counterexample :
  (∃ new w',
     post_events ms_clock Date_of_iso 0 ritual empty_world
       = (Returned (Response 201 (PDoc (Some new))), w') ∧
     new !! "createdAt" = Some (BDate 1730332800000) ∧
     new !! "updatedAt" = Some (BDate 1730332800001) ∧
     new !! "createdAt" ≠ new !! "updatedAt")
  ∧ (truthy (ritual_unprintable_date !! "date") = true ∧
     post_events ms_clock Date_of_iso 0 ritual_unprintable_date empty_world
       = (Returned (Response 500
            (PError "Failed to create event"
                    (Some "Cannot convert object to primitive value"))),
          empty_world))
  ∧ (∃ new w',
       post_events ms_clock Date_of_iso 0 ritual_garbage_date empty_world
         = (Returned (Response 201 (PDoc (Some new))), w') ∧
       new !! "date" = Some (BDate 0)).
Proof.
  split; [|split].
  - eexists _, _. split; [vm_compute; reflexivity|].
    split; [vm_compute; reflexivity|]. split; [vm_compute; reflexivity|].
    vm_compute. discriminate.
  - split; vm_compute; reflexivity.
  - eexists _, _. split; vm_compute; reflexivity.
Qed.

(** Creating the ritual in the empty store. *)
Lemma create_returns_stored_record_witness :
  store_wf empty_world = true ∧
  ∃ new w',
    post_events ms_clock Date_of_iso 0 ritual empty_world
      = (Returned (Response 201 (PDoc (Some new))), w') ∧
    new !! "title" = Some (BJson (JStr "Ritual")) ∧
    new !! "date" = Some (BDate 1730332800000) ∧
    new !! "description" = Some (BJson (JStr "")) ∧
    new !! "time" = Some (BJson (JStr "")).
Proof.
  split; [vm_compute; reflexivity|].
  destruct (create_returns_stored_record ms_clock Date_of_iso 0 empty_world
              ritual (JStr "2024-10-31") 1730332800000)
    as (new & w' & Hrun & _ & Ht & Hd & _ & Hde & Hti & _);
    [vm_compute; reflexivity | vm_compute; reflexivity
    | vm_compute; reflexivity | vm_compute; reflexivity
    | vm_compute; reflexivity | vm_compute; reflexivity
    | vm_compute; reflexivity |].
  exists new, w'. split; [assumption|]. split; [exact Ht|].
  split; [exact Hd|]. split; [apply Hde | apply Hti]; vm_compute; reflexivity.
Defined.

(** C8 as stated fails: under a clock that runs backwards, the record a
    create stores has its [createdAt] after its [updatedAt]. *)
Lemma backward_clock_counterexample :
  ∃ d,
    d ∈ coll (serve backward_clock Date_of_iso ObjectId_of_hex 0
                [PostEvents ritual] empty_world) ∧
    d !! "createdAt" = Some (BDate 1730332800000) ∧
    d !! "updatedAt" = Some (BDate 1730332799999) ∧
    ¬ timestamps_ordered d.
Proof.
  exists (ritual_stored 1730332800000 1730332799999).
  split.
  { assert (E : coll (serve backward_clock Date_of_iso ObjectId_of_hex 0
                        [PostEvents ritual] empty_world)
                = [ritual_stored 1730332800000 1730332799999]).
    { vm_compute. reflexivity. }
    rewrite E. apply list_elem_of_here. }
  split; [vm_compute; reflexivity|]. split; [vm_compute; reflexivity|].
  intros (c & u & Hc & Hu & Hle).
  vm_compute in Hc, Hu. injection Hc as <-. injection Hu as <-. lia.
Qed.

(** After creating the ritual and updating its time, the stored record's
    timestamps are ordered. *)
Lemma createdAt_le_updatedAt_always_witness :
  monotone_clock ms_clock ∧
  timestamps_ordered
    (<["time" := BJson (JStr "21:00")]>
       (ritual_stored 1730332800000 1730332800002)).
Proof.
  assert (Hmono : monotone_clock ms_clock).
  { intros i j Hij. unfold ms_clock. lia. }
  split; [exact Hmono|].
  apply (createdAt_le_updatedAt_always ms_clock Date_of_iso ObjectId_of_hex 0
           [PostEvents ritual; PutEvent id0 time_only]); [exact Hmono|].
  assert (E : coll (serve ms_clock Date_of_iso ObjectId_of_hex 0
                      [PostEvents ritual; PutEvent id0 time_only] empty_world)
              = [<["time" := BJson (JStr "21:00")]>
                   (ritual_stored 1730332800000 1730332800002)]).
  { vm_compute. reflexivity. }
  rewrite E. apply list_elem_of_here.
Defined.



(** * The further properties at concrete requests *)

Lemma range_requires_both_bounds_witness :
  get_events_range Date_of_iso 0 None (Some "2024-12-31") one_event_world =
    (Returned (Response 400 (PError "Start and end dates are required" None)),
     one_event_world).
Proof.
  apply (range_requires_both_bounds Date_of_iso 0 None (Some "2024-12-31")
           one_event_world).
  left. reflexivity.
Defined.

Lemma range_with_inverted_bounds_is_empty_witness :
  ∃ w', get_events_range Date_of_iso 0 (Some "2024-11-30") (Some "2024-10-01")
          one_event_world
        = (Returned (Response 200 (PDocs [])), w').
Proof.
  apply (range_with_inverted_bounds_is_empty Date_of_iso 0 "2024-11-30"
           "2024-10-01" one_event_world);
    [discriminate | discriminate | vm_compute; reflexivity].
Defined.

Lemma update_unknown_id_not_found_witness :
  ObjectId_of_hex id1 = Some 1%N ∧
  ∃ w',
    put_events_id ms_clock Date_of_iso ObjectId_of_hex 0 id1 time_only
      one_event_world
      = (Returned (Response 404 (PError "Event not found" None)), w') ∧
    coll w' = coll one_event_world.
Proof.
  split; [vm_compute; reflexivity|].
  destruct (update_unknown_id_not_found ms_clock Date_of_iso ObjectId_of_hex
              0 one_event_world id1 time_only 1%N)
    as (w' & Hrun & Hcoll & _).
  - vm_compute. reflexivity.
  - intros d Hd. simpl in Hd. apply list_elem_of_singleton in Hd.
    rewrite Hd. vm_compute. discriminate.
  - vm_compute. reflexivity.
  - exists w'. split; assumption.
Defined.

Lemma delete_unknown_id_not_found_witness :
  ∃ w',
    delete_events_id ObjectId_of_hex id1 one_event_world
      = (Returned (Response 404 (PError "Event not found" None)), w') ∧
    coll w' = coll one_event_world.
Proof.
  destruct (delete_unknown_id_not_found ObjectId_of_hex one_event_world id1
              1%N)
    as (w' & Hrun & Hcoll & _).
  - vm_compute. reflexivity.
  - intros d Hd. simpl in Hd. apply list_elem_of_singleton in Hd.
    rewrite Hd. vm_compute. discriminate.
  - exists w'. split; assumption.
Defined.

Lemma create_then_delete_restores_collection_witness :
  ∃ new w1 w2,
    post_events ms_clock Date_of_iso 0 ritual one_event_world
      = (Returned (Response 201 (PDoc (Some new))), w1) ∧
    delete_events_id ObjectId_of_hex id1 w1 =
      (Returned (Response 200 (PMessage "Event deleted successfully")), w2) ∧
    coll w2 = coll one_event_world.
Proof.
  destruct (create_then_delete_restores_collection ms_clock Date_of_iso
              ObjectId_of_hex 0 one_event_world ritual id1)
    as (new & w1 & w2 & H1 & _ & H2 & H3);
    [vm_compute; reflexivity | vm_compute; reflexivity
    | vm_compute; reflexivity | vm_compute; reflexivity
    | vm_compute; reflexivity | vm_compute; reflexivity |].
  exists new, w1, w2. split; [assumption|]. split; assumption.
Defined.

Lemma create_then_range_on_its_date_witness :
  ∃ new w1 evs w2,
    post_events ms_clock Date_of_iso 0 ritual empty_world
      = (Returned (Response 201 (PDoc (Some new))), w1) ∧
    get_events_range Date_of_iso 0 (Some "2024-10-31") (Some "2024-10-31") w1
      = (Returned (Response 200 (PDocs evs)), w2) ∧
    new ∈ evs.
Proof.
  apply (create_then_range_on_its_date ms_clock Date_of_iso 0 empty_world
           ritual "2024-10-31");
    [vm_compute; reflexivity | vm_compute; reflexivity
    | vm_compute; reflexivity | vm_compute; reflexivity | discriminate].
Defined.

Lemma repeated_update_changes_only_updatedAt_witness :
  ∃ new1 w1 new2 w2,
    put_events_id ms_clock Date_of_iso ObjectId_of_hex 0 id0 time_only
      one_event_world
      = (Returned (Response 200 (PDoc (Some new1))), w1) ∧
    put_events_id ms_clock Date_of_iso ObjectId_of_hex 0 id0 time_only w1
      = (Returned (Response 200 (PDoc (Some new2))), w2) ∧
    new2 = <["updatedAt" := BDate 1730332800003]> new1.
Proof.
  destruct (repeated_update_changes_only_updatedAt ms_clock Date_of_iso
              ObjectId_of_hex 0 one_event_world id0 time_only 0%N 0%nat
              (ritual_stored 1730332800000 1730332800001))
    as (new1 & w1 & new2 & w2 & H1 & H2 & H3 & _);
    [vm_compute; reflexivity | vm_compute; reflexivity
    | vm_compute; reflexivity |].
  exists new1, w1, new2, w2. split; [assumption|]. split; assumption.
Defined.

Lemma stored_events_stay_complete_witness :
  complete_event (ritual_stored 1730332800000 1730332800002).
Proof.
  apply (stored_events_stay_complete ms_clock Date_of_iso ObjectId_of_hex 0
           [PostEvents ritual; PutEvent id0 empty_strings]).
  assert (E : coll (serve ms_clock Date_of_iso ObjectId_of_hex 0
                      [PostEvents ritual; PutEvent id0 empty_strings]
                      empty_world)
              = [ritual_stored 1730332800000 1730332800002]).
  { vm_compute. reflexivity. }
  rewrite E. apply list_elem_of_here.
Defined.

Lemma create_stores_eight_fields_witness :
  ∃ new w',
    post_events ms_clock Date_of_iso 0 ritual empty_world
      = (Returned (Response 201 (PDoc (Some new))), w') ∧
    dom new = ({[ "_id"; "title"; "description"; "date"; "type"; "time";
                  "createdAt"; "updatedAt" ]} : gset string).
Proof.
  destruct (create_stores_eight_fields ms_clock Date_of_iso 0 empty_world
              ritual)
    as (new & w' & Hrun & Hdom & _);
    [vm_compute; reflexivity | vm_compute; reflexivity
    | vm_compute; reflexivity | vm_compute; reflexivity
    | vm_compute; reflexivity |].
  exists new, w'. split; assumption.
Defined.

Lemma update_field_by_field_witness :
  ∃ new w',
    put_events_id ms_clock Date_of_iso ObjectId_of_hex 0 id0 empty_strings
      one_event_world
      = (Returned (Response 200 (PDoc (Some new))), w') ∧
    new !! "description" = Some (BJson (JStr "")) ∧
    new !! "title" = Some (BJson (JStr "Ritual")).
Proof.
  destruct (update_field_by_field ms_clock Date_of_iso ObjectId_of_hex 0
              one_event_world id0 empty_strings 0%N 0%nat
              (ritual_stored 1730332800000 1730332800001))
    as (new & w' & Hrun & Hdef & Hreq & _);
    [vm_compute; reflexivity | vm_compute; reflexivity
    | vm_compute; reflexivity |].
  exists new, w'. split; [assumption|]. split.
  - apply Hdef; [rewrite !elem_of_cons; tauto | vm_compute; reflexivity].
  - destruct (Hreq "title") as [_ Hkeep]; [rewrite !elem_of_cons; tauto|].
    rewrite Hkeep; vm_compute; reflexivity.
Defined.

Lemma update_after_delete_not_found_witness :
  ∃ w1 w2,
    delete_events_id ObjectId_of_hex id0 one_event_world =
      (Returned (Response 200 (PMessage "Event deleted successfully")), w1) ∧
    put_events_id ms_clock Date_of_iso ObjectId_of_hex 0 id0 time_only w1 =
      (Returned (Response 404 (PError "Event not found" None)), w2).
Proof.
  destruct (update_after_delete_not_found ms_clock Date_of_iso ObjectId_of_hex
              0 one_event_world id0 time_only 0%N
              (ritual_stored 1730332800000 1730332800001))
    as (w1 & w2 & H1 & H2 & _);
    [vm_compute; reflexivity | vm_compute; reflexivity
    | apply list_elem_of_here | vm_compute; reflexivity
    | vm_compute; reflexivity |].
  exists w1, w2. split; assumption.
Defined.

Lemma createdAt_never_changes_witness :
  (<["time" := BJson (JStr "21:00")]>
     (ritual_stored 1730332800000 1730332800002)) !! "createdAt"
  = ritual_stored 1730332800000 1730332800001 !! "createdAt".
Proof.
  apply (createdAt_never_changes ms_clock Date_of_iso ObjectId_of_hex 0
           [PostEvents ritual] [PutEvent id0 time_only] _ _ 0%N).
  - assert (E : coll (serve ms_clock Date_of_iso ObjectId_of_hex 0
                        [PostEvents ritual] empty_world)
                = [ritual_stored 1730332800000 1730332800001]).
    { vm_compute. reflexivity. }
    rewrite E. apply list_elem_of_here.
  - vm_compute. reflexivity.
  - assert (E : coll (serve ms_clock Date_of_iso ObjectId_of_hex 0
                        [PutEvent id0 time_only]
                        (serve ms_clock Date_of_iso ObjectId_of_hex 0
                           [PostEvents ritual] empty_world))
                = [<["time" := BJson (JStr "21:00")]>
                     (ritual_stored 1730332800000 1730332800002)]).
    { vm_compute. reflexivity. }
    rewrite E. apply list_elem_of_here.
  - vm_compute. reflexivity.
Defined.

Lemma deleted_id_never_returns_witness :
  ∃ w1,
    delete_events_id ObjectId_of_hex id0 one_event_world =
      (Returned (Response 200 (PMessage "Event deleted successfully")), w1) ∧
    ∀ d',
      d' ∈ coll (serve ms_clock Date_of_iso ObjectId_of_hex 0
                   [PostEvents ritual; PutEvent id0 time_only] w1) →
      doc_id d' ≠ Some 0%N.
Proof.
  apply (deleted_id_never_returns ms_clock Date_of_iso ObjectId_of_hex 0
           one_event_world id0 0%N
           (ritual_stored 1730332800000 1730332800001));
    [vm_compute; reflexivity | vm_compute; reflexivity
    | apply list_elem_of_here | vm_compute; reflexivity].
Defined.

Lemma status_400_means_no_effect_witness :
  snd (handle ms_clock Date_of_iso ObjectId_of_hex 0 (PostEvents no_title)
         one_event_world)
  = one_event_world.
Proof.
  apply (status_400_means_no_effect ms_clock Date_of_iso ObjectId_of_hex 0
           (PostEvents no_title) one_event_world
           (Response 400
              (PError
                 "Missing required fields: title, date, and type are required"
                 None)));
    vm_compute; reflexivity.
Defined.
